(** * Streamsync UI: the Ag Grid custom component and the documentation manifest

    A shallow embedding of
    - [src/ui/src/custom_components/AgGridCommunity.vue]: the component
      metadata ([streamsync]), its default grid specification
      ([defaultSpec]) and the lifecycle glue ([renderGrid], the [watch]
      callback and [onMounted]);
    - the documentation navigation manifest (a JSON document).

    JavaScript values are modelled by [JsVal]; the asynchronous
    [renderGrid] is split at its only suspension point, the dynamic
    [import], into the part that runs at the call and the part that runs
    when the module has been loaded. *)

From Stdlib Require Import List String Ascii ZArith Bool Lia Arith.
From Stdlib Require Import DecimalString.
Import ListNotations.
Open Scope string_scope.
Set Warnings "-register-all".

(* ================================================================== *)
(** ** JavaScript values *)

(** The values that occur in the sources: the evaluated field value, the
    grid specification and the JSON documents.  Numbers are the integers
    (every number literal of the sources is one).  The properties of an
    object are kept in insertion order, as JavaScript enumerates them. *)
Inductive JsVal : Type :=
| JUndefined
| JNull
| JBool (b : bool)
| JNum (n : Z)
| JStr (s : string)
| JArr (items : list JsVal)
| JObj (props : list (string * JsVal)).

(** [ToBoolean]: what [!v] and [if (v)] test. *)
Definition truthy (v : JsVal) : bool :=
  match v with
  | JUndefined | JNull => false
  | JBool b => b
  | JNum n => negb (Z.eqb n 0)
  | JStr s => negb (String.eqb s EmptyString)
  | JArr _ | JObj _ => true
  end.

Definition falsy (v : JsVal) : bool := negb (truthy v).

Definition nullish (v : JsVal) : bool :=
  match v with
  | JUndefined | JNull => true
  | _ => false
  end.

Fixpoint lookup (k : string) (ps : list (string * JsVal)) : option JsVal :=
  match ps with
  | [] => None
  | (k', v) :: r => if String.eqb k k' then Some v else lookup k r
  end.

(** [v.k] for a key [k] that is no built-in property of strings or arrays
    (the sources read [rowData] only): [None] is the [TypeError] of reading
    a property of [undefined] or [null]; a missing property reads as
    [undefined]. *)
Definition get_prop (v : JsVal) (k : string) : option JsVal :=
  match v with
  | JUndefined | JNull => None
  | JObj ps =>
      Some (match lookup k ps with Some x => x | None => JUndefined end)
  | _ => Some JUndefined
  end.

(** Assignment [o[k] = v] on a property list: an existing key keeps its
    position, a new key goes last. *)
Fixpoint set_prop (k : string) (v : JsVal) (ps : list (string * JsVal))
  : list (string * JsVal) :=
  match ps with
  | [] => [(k, v)]
  | (k', v') :: r =>
      if String.eqb k k' then (k', v) :: r else (k', v') :: set_prop k v r
  end.

(* ================================================================== *)
(** ** JSON.stringify and JSON.parse *)

Module JSON.

Definition dquote : ascii := "034"%char.
Definition backslash : ascii := "092"%char.
Definition newline : string := String "010"%char EmptyString.

Definition hex_digit (n : nat) : ascii :=
  if Nat.ltb n 10 then ascii_of_nat (48 + n) else ascii_of_nat (87 + n).

(** The escape of one code unit in [QuoteJSONString]. *)
Definition quote_char (c : ascii) : string :=
  let n := nat_of_ascii c in
  if Nat.eqb n 34 then String backslash (String dquote EmptyString)
  else if Nat.eqb n 92 then String backslash (String backslash EmptyString)
  else if Nat.eqb n 8 then String backslash "b"
  else if Nat.eqb n 9 then String backslash "t"
  else if Nat.eqb n 10 then String backslash "n"
  else if Nat.eqb n 12 then String backslash "f"
  else if Nat.eqb n 13 then String backslash "r"
  else if Nat.ltb n 32 then
    String backslash
      ("u00" ++ String (hex_digit (n / 16))
                  (String (hex_digit (n mod 16)) EmptyString))
  else String c EmptyString.

Fixpoint quote_body (s : string) : string :=
  match s with
  | EmptyString => EmptyString
  | String c r => quote_char c ++ quote_body r
  end.

Definition QuoteJSONString (s : string) : string :=
  String dquote (quote_body s ++ String dquote EmptyString).

Definition string_of_Z (n : Z) : string :=
  NilZero.string_of_int (Z.to_int n).

Fixpoint join (sep : string) (l : list string) : string :=
  match l with
  | [] => EmptyString
  | [x] => x
  | x :: r => x ++ sep ++ join sep r
  end.

(** The end of [SerializeJSONObject] and [SerializeJSONArray]: the
    brackets around the serialized members. *)
Definition wrap (op cl gap stepback indent : string) (partial : list string)
  : string :=
  match partial with
  | [] => op ++ cl
  | _ =>
      if String.eqb gap EmptyString then op ++ join "," partial ++ cl
      else
        op ++ newline ++ indent
           ++ join ("," ++ newline ++ indent) partial
           ++ newline ++ stepback ++ cl
  end.

(** [SerializeJSONProperty] without replacer: [None] is [undefined]. *)
Fixpoint SerializeJSONProperty (gap indent : string) (v : JsVal)
  {struct v} : option string :=
  match v with
  | JUndefined => None
  | JNull => Some "null"
  | JBool true => Some "true"
  | JBool false => Some "false"
  | JNum n => Some (string_of_Z n)
  | JStr s => Some (QuoteJSONString s)
  | JArr items =>
      let ind := indent ++ gap in
      let partial :=
        (fix elements (l : list JsVal) : list string :=
           match l with
           | [] => []
           | x :: r =>
               match SerializeJSONProperty gap ind x with
               | Some s => s
               | None => "null"
               end :: elements r
           end) items in
      Some (wrap "[" "]" gap indent ind partial)
  | JObj props =>
      let ind := indent ++ gap in
      let colon := if String.eqb gap EmptyString then ":" else ": " in
      let partial :=
        (fix members (l : list (string * JsVal)) : list string :=
           match l with
           | [] => []
           | (k, x) :: r =>
               match SerializeJSONProperty gap ind x with
               | Some s => (QuoteJSONString k ++ colon ++ s) :: members r
               | None => members r
               end
           end) props in
      Some (wrap "{" "}" gap indent ind partial)
  end.

Fixpoint spaces (n : nat) : string :=
  match n with
  | O => EmptyString
  | S m => String " "%char (spaces m)
  end.

(** [JSON.stringify(v, null, space)] for a numeric [space]. *)
Definition stringify (v : JsVal) (space : nat) : option string :=
  SerializeJSONProperty (spaces (Nat.min 10 space)) EmptyString v.

(** *** JSON.parse *)

Definition is_ws (c : ascii) : bool :=
  let n := nat_of_ascii c in
  Nat.eqb n 32 || Nat.eqb n 9 || Nat.eqb n 10 || Nat.eqb n 13.

Fixpoint skip_ws (s : string) : string :=
  match s with
  | String c r => if is_ws c then skip_ws r else s
  | EmptyString => s
  end.

Definition digit_of (c : ascii) : option Z :=
  let n := nat_of_ascii c in
  if Nat.leb 48 n && Nat.leb n 57 then Some (Z.of_nat (n - 48)) else None.

Definition hex_of (c : ascii) : option nat :=
  let n := nat_of_ascii c in
  if Nat.leb 48 n && Nat.leb n 57 then Some (n - 48)
  else if Nat.leb 97 n && Nat.leb n 102 then Some (n - 87)
  else if Nat.leb 65 n && Nat.leb n 70 then Some (n - 55)
  else None.

(** The characters of a string literal after its opening quote.  An
    escape [\uXXXX] is read when it denotes a code unit below 256. *)
Fixpoint parse_chars (s : string) : option (string * string) :=
  match s with
  | EmptyString => None
  | String c r =>
      let n := nat_of_ascii c in
      if Nat.eqb n 34 then Some (EmptyString, r)
      else if Nat.eqb n 92 then
        match r with
        | String e r' =>
            let unescaped (d : ascii) (rest : string) :=
              match parse_chars rest with
              | Some (body, out) => Some (String d body, out)
              | None => None
              end in
            let m := nat_of_ascii e in
            if Nat.eqb m 34 then unescaped dquote r'
            else if Nat.eqb m 92 then unescaped backslash r'
            else if Nat.eqb m 47 then unescaped "/"%char r'
            else if Nat.eqb m 98 then unescaped "008"%char r'
            else if Nat.eqb m 102 then unescaped "012"%char r'
            else if Nat.eqb m 110 then unescaped "010"%char r'
            else if Nat.eqb m 114 then unescaped "013"%char r'
            else if Nat.eqb m 116 then unescaped "009"%char r'
            else if Nat.eqb m 117 then
              match r' with
              | String h1 (String h2 (String h3 (String h4 r''))) =>
                  match hex_of h1, hex_of h2, hex_of h3, hex_of h4 with
                  | Some 0%nat, Some 0%nat, Some a, Some b =>
                      unescaped (ascii_of_nat (16 * a + b)) r''
                  | _, _, _, _ => None
                  end
              | _ => None
              end
            else None
        | EmptyString => None
        end
      else if Nat.ltb n 32 then None
      else
        match parse_chars r with
        | Some (body, out) => Some (String c body, out)
        | None => None
        end
  end.

Fixpoint parse_digits (acc : Z) (s : string) : Z * string :=
  match s with
  | String c r =>
      match digit_of c with
      | Some d => parse_digits (10 * acc + d) r
      | None => (acc, s)
      end
  | EmptyString => (acc, s)
  end.

(** A number without sign: [0] or a digit sequence without leading zero.
    A fraction or an exponent is outside the integers of [JsVal]. *)
Definition parse_nat (s : string) : option (Z * string) :=
  match s with
  | String c r =>
      match digit_of c with
      | Some d =>
          let '(n, rest) :=
            if Z.eqb d 0 then (0%Z, r) else parse_digits d r in
          match rest with
          | String c' _ =>
              if (Ascii.eqb c' "."%char || Ascii.eqb c' "e"%char
                  || Ascii.eqb c' "E"%char)%bool
              then None else Some (n, rest)
          | EmptyString => Some (n, rest)
          end
      | None => None
      end
  | EmptyString => None
  end.

Fixpoint drop (n : nat) (s : string) : string :=
  match n, s with
  | S m, String _ r => drop m r
  | _, _ => s
  end.

Definition keyword (kw : string) (v : JsVal) (s : string)
  : option (JsVal * string) :=
  if String.prefix kw s then Some (v, drop (String.length kw) s) else None.

Fixpoint parse_value (fuel : nat) (s : string) {struct fuel}
  : option (JsVal * string) :=
  match fuel with
  | O => None
  | S f =>
      match skip_ws s with
      | EmptyString => None
      | String c r =>
          let n := nat_of_ascii c in
          if Nat.eqb n 123 then
            match skip_ws r with
            | String c' r' =>
                if Nat.eqb (nat_of_ascii c') 125 then Some (JObj [], r')
                else parse_members f (skip_ws r) []
            | EmptyString => None
            end
          else if Nat.eqb n 91 then
            match skip_ws r with
            | String c' r' =>
                if Nat.eqb (nat_of_ascii c') 93 then Some (JArr [], r')
                else parse_elements f r []
            | EmptyString => None
            end
          else if Nat.eqb n 34 then
            match parse_chars r with
            | Some (str, rest) => Some (JStr str, rest)
            | None => None
            end
          else if Nat.eqb n 45 then
            match parse_nat r with
            | Some (z, rest) => Some (JNum (- z), rest)
            | None => None
            end
          else if Nat.eqb n 116 then keyword "true" (JBool true) (String c r)
          else if Nat.eqb n 102 then keyword "false" (JBool false) (String c r)
          else if Nat.eqb n 110 then keyword "null" JNull (String c r)
          else
            match parse_nat (String c r) with
            | Some (z, rest) => Some (JNum z, rest)
            | None => None
            end
      end
  end

with parse_elements (fuel : nat) (s : string) (acc : list JsVal)
  {struct fuel} : option (JsVal * string) :=
  match fuel with
  | O => None
  | S f =>
      match parse_value f s with
      | Some (v, rest) =>
          match skip_ws rest with
          | String c r =>
              if Nat.eqb (nat_of_ascii c) 44 then
                parse_elements f r (acc ++ [v])
              else if Nat.eqb (nat_of_ascii c) 93 then
                Some (JArr (acc ++ [v]), r)
              else None
          | EmptyString => None
          end
      | None => None
      end
  end

with parse_members (fuel : nat) (s : string) (acc : list (string * JsVal))
  {struct fuel} : option (JsVal * string) :=
  match fuel with
  | O => None
  | S f =>
      match s with
      | String q r =>
          if Nat.eqb (nat_of_ascii q) 34 then
            match parse_chars r with
            | Some (k, rest) =>
                match skip_ws rest with
                | String c r1 =>
                    if Nat.eqb (nat_of_ascii c) 58 then
                      match parse_value f r1 with
                      | Some (v, rest') =>
                          match skip_ws rest' with
                          | String c' r2 =>
                              if Nat.eqb (nat_of_ascii c') 44 then
                                parse_members f (skip_ws r2) (set_prop k v acc)
                              else if Nat.eqb (nat_of_ascii c') 125 then
                                Some (JObj (set_prop k v acc), r2)
                              else None
                          | EmptyString => None
                          end
                      | None => None
                      end
                    else None
                | EmptyString => None
                end
            | None => None
            end
          else None
      | EmptyString => None
      end
  end.

(** [JSON.parse(text)]: [None] is the [SyntaxError]. *)
Definition parse (text : string) : option JsVal :=
  match parse_value (S (String.length text)) text with
  | Some (v, rest) =>
      match skip_ws rest with
      | EmptyString => Some v
      | String _ _ => None
      end
  | None => None
  end.

End JSON.

(* ================================================================== *)
(** ** The component's static data *)

(** [const defaultSpec = { columnDefs: [...], rowData: [...] }]. *)
Definition defaultSpec : JsVal :=
  JObj
    [ ("columnDefs",
       JArr
         [ JObj [("headerName", JStr "Make"); ("field", JStr "make")];
           JObj [("headerName", JStr "Model"); ("field", JStr "model")];
           JObj [("headerName", JStr "Price"); ("field", JStr "price")] ]);
      ("rowData",
       JArr
         [ JObj [("make", JStr "Toyota"); ("model", JStr "Celica");
                 ("price", JNum 35000)];
           JObj [("make", JStr "Ford"); ("model", JStr "Mondeo");
                 ("price", JNum 32000)];
           JObj [("make", JStr "Porsche"); ("model", JStr "Boxster");
                 ("price", JNum 7200)] ]) ].

(** Modelled from the spec: the [FieldType] enumeration imported from
    [../streamsyncTypes], a file that is not among the sources.  The spec
    describes it as "a small closed set (e.g., object/JSON, text, color,
    boolean)". *)
Inductive FieldType : Type :=
| Object
| Text
| Color
| Boolean.

(** One entry of the [fields] map.  [default] is [None] where
    [JSON.stringify] yields [undefined]. *)
Record Field : Type := {
  name : string;
  default : option string;
  desc : string;
  type : FieldType
}.

(** The [streamsync] record of the component's default export.  The
    [fields] object literal is kept as the list of its entries, in the
    order they are written. *)
Record ComponentMeta : Type := {
  meta_name : string;
  description : string;
  category : string;
  fields : list (string * Field)
}.

Definition streamsync : ComponentMeta :=
  {| meta_name := "Ag Grid";
     description := EmptyString;
     category := "Content";
     fields :=
       [ ("spec",
          {| name := "Grid specification";
             default := JSON.stringify defaultSpec 2;
             desc := "Ag Grid specification";
             type := Object |}) ] |}.

(* ================================================================== *)
(** ** The widget *)

(** A DOM element, by identity. *)
Definition Element : Type := nat.

(** The [Grid] of ag-grid-community is a library outside the sources; the
    component uses its constructor and [gridOptions.api.setRowData] only.
    An instance is described by the container it was given, by its
    [gridOptions] property (what [aggrid.gridOptions] reads) and by the
    rows it was handed last: the [rowData] of the options it was built
    from, then the argument of each [setRowData] call that returned.  The
    grid shows these rows when they are an array, and no rows when they
    are [undefined]. *)
Record Grid : Type := {
  eGridDiv : option Element;
  gridOptions : JsVal;
  rowData : JsVal
}.

Definition prop_or_undefined (v : JsVal) (k : string) : JsVal :=
  match get_prop v k with
  | Some x => x
  | None => JUndefined
  end.

(** What [typeof v === 'object'] or an array is: a value that can carry
    properties such as [api]. *)
Definition is_object (v : JsVal) : bool :=
  match v with
  | JArr _ | JObj _ => true
  | _ => false
  end.

(** How a call into the library can end.  Where the outcome is fixed by
    what the call is given it is [MustReturn] or [MustThrow]; otherwise
    it is up to the library. *)
Inductive Verdict : Type :=
| MustReturn
| MustThrow
| Either.

(** [new Grid(el, opts)].  On falsy options the constructor reports that
    no options were provided and returns at once.  On a truthy primitive
    it throws: it cannot put [api] on a string, a number or a boolean. *)
Definition Grid_verdict (opts : JsVal) : Verdict :=
  if falsy opts then MustReturn
  else if is_object opts then Either
  else MustThrow.

(** [api.setRowData(rows)].  It returns on [undefined]; on a truthy number
    or [true], which it cannot go through as rows, it throws. *)
Definition setRowData_verdict (rows : JsVal) : Verdict :=
  match rows with
  | JUndefined => MustReturn
  | JNum n => if Z.eqb n 0 then Either else MustThrow
  | JBool true => MustThrow
  | _ => Either
  end.

(** The instance [new Grid(el, opts)] gives when it returns.  Built on
    falsy options, the instance has no [gridOptions]. *)
Definition new_Grid (el : option Element) (opts : JsVal) : Grid :=
  {| eGridDiv := el;
     gridOptions := if truthy opts then opts else JUndefined;
     rowData := prop_or_undefined opts "rowData" |}.

(** The instance after [g.gridOptions.api.setRowData(rows)] has
    returned. *)
Definition setRowData (g : Grid) (rows : JsVal) : Grid :=
  {| eGridDiv := eGridDiv g;
     gridOptions := gridOptions g;
     rowData := rows |}.

(* ================================================================== *)
(** ** The component instance *)

(** The trace of the component's code: a call of [renderGrid] at one of
    its two call sites, the start of the dynamic import and its failure, a
    constructor call that returned and one that threw, a [setRowData] call
    that returned and one that threw, and the [TypeError] of the
    component's own property reads. *)
Inductive Event : Type :=
| ECallRenderGrid
| EImport
| ENewGrid (el : option Element) (opts : JsVal)
| ESetRowData (rows : JsVal)
| ETypeError
| ENewGridThrows (el : option Element) (opts : JsVal)
| ESetRowDataThrows (rows : JsVal)
| EImportFailed.

(** The store of one component instance: the exported metadata, the
    injected [fields.spec.value], the template ref [rootEl.value], the
    variable [aggrid], and the number of [renderGrid] invocations that are
    suspended at [await import('ag-grid-community')].  The continuation of
    such an invocation captures no local value, so a count describes
    them. *)
Record State : Type := {
  meta : ComponentMeta;
  spec_value : JsVal;
  rootEl : option Element;
  aggrid : option Grid;
  suspended : nat
}.

Definition set_spec_value (v : JsVal) (st : State) : State :=
  {| meta := meta st; spec_value := v; rootEl := rootEl st;
     aggrid := aggrid st; suspended := suspended st |}.

Definition set_rootEl (el : option Element) (st : State) : State :=
  {| meta := meta st; spec_value := spec_value st; rootEl := el;
     aggrid := aggrid st; suspended := suspended st |}.

Definition set_aggrid (g : option Grid) (st : State) : State :=
  {| meta := meta st; spec_value := spec_value st; rootEl := rootEl st;
     aggrid := g; suspended := suspended st |}.

Definition set_suspended (n : nat) (st : State) : State :=
  {| meta := meta st; spec_value := spec_value st; rootEl := rootEl st;
     aggrid := aggrid st; suspended := n |}.

(** The state after [<script setup>] has run: [rootEl = ref(null)],
    [aggrid = null], and [v0] the evaluated value at that time. *)
Definition init (v0 : JsVal) : State :=
  {| meta := streamsync; spec_value := v0; rootEl := None;
     aggrid := None; suspended := 0 |}.

Definition absent {A : Type} (o : option A) : bool :=
  match o with
  | Some _ => false
  | None => true
  end.

(** What happens from outside.  Vue mounts the template (sets [rootEl] and
    runs the [onMounted] hook); the watcher sees a change of the evaluated
    value (and runs its callback with the new value); a pending module
    load completes and the library call of the continuation, if it makes
    one, returns unless it must throw ([Loaded]) or throws where it could
    have returned ([LoadedThrows]); a pending module load fails, so that
    its invocation never resumes; Vue unmounts the template and resets
    [rootEl] to null.

    No order is put on the actions, so the runs are those Vue and the
    network can produce and more: Vue mounts an instance once and stops
    its watcher at the unmount.  What holds of every run holds of these.
    After [Unmount] a [Change] has, on the state, the effect of a change
    of the value that no watcher sees: [rootEl] is null and the call
    returns at its guard. *)
Inductive Action : Type :=
| Mount (el : Element)
| Change (v : JsVal)
| Loaded
| LoadedThrows
| LoadFailed
| Unmount.

Section Component.

(** [import.meta.env.SSR], fixed at build time. *)
Variable SSR : bool.

(** [renderGrid], from its call to the [await]: the two guards, then
    the dynamic import is started and the invocation is suspended. *)
Definition renderGrid (st : State) : State * list Event :=
  if SSR then (st, [])
  else if (falsy (spec_value st) || absent (rootEl st))%bool then (st, [])
  else (set_suspended (S (suspended st)) st, [EImport]).

(** [renderGrid], from the [await] to its end, when the library call it
    makes returns unless it must throw.  The condition and both branches
    read [aggrid], [rootEl.value] and [fields.spec.value] as they are
    now.  A constructor that throws leaves [aggrid] as it is.  In
    [aggrid.gridOptions.api.setRowData(fields.spec.value.rowData)], the
    read of [api.setRowData] throws unless [gridOptions] is an object, and
    the read of [rowData] throws on [undefined] and [null]. *)
Definition renderGrid_resume (st : State) : State * list Event :=
  match aggrid st with
  | None =>
      match Grid_verdict (spec_value st) with
      | MustThrow => (st, [ENewGridThrows (rootEl st) (spec_value st)])
      | _ =>
          (set_aggrid (Some (new_Grid (rootEl st) (spec_value st))) st,
           [ENewGrid (rootEl st) (spec_value st)])
      end
  | Some g =>
      if is_object (gridOptions g) then
        match get_prop (spec_value st) "rowData" with
        | Some rows =>
            match setRowData_verdict rows with
            | MustThrow => (st, [ESetRowDataThrows rows])
            | _ =>
                (set_aggrid (Some (setRowData g rows)) st,
                 [ESetRowData rows])
            end
        | None => (st, [ETypeError])
        end
      else (st, [ETypeError])
  end.

(** [renderGrid], from the [await] to its end, when the library call it
    makes throws although it could have returned: nothing is assigned.
    [None] where no such call is made. *)
Definition renderGrid_resume_throws (st : State)
  : option (State * list Event) :=
  match aggrid st with
  | None =>
      match Grid_verdict (spec_value st) with
      | Either => Some (st, [ENewGridThrows (rootEl st) (spec_value st)])
      | _ => None
      end
  | Some g =>
      if is_object (gridOptions g) then
        match get_prop (spec_value st) "rowData" with
        | Some rows =>
            match setRowData_verdict rows with
            | Either => Some (st, [ESetRowDataThrows rows])
            | _ => None
            end
        | None => None
        end
      else None
  end.

(** A call site of [renderGrid()]. *)
Definition call_renderGrid (st : State) : State * list Event :=
  let '(st', evs) := renderGrid st in (st', ECallRenderGrid :: evs).

(** [watch(() => fields.spec.value, (spec) => { ... })]: the callback. *)
Definition watch_callback (spec : JsVal) (st : State) : State * list Event :=
  if falsy spec then (st, []) else call_renderGrid st.

(** [onMounted(() => { renderGrid(); if (!rootEl.value) return; })]:
    nothing follows the second guard. *)
Definition onMounted (st : State) : State * list Event :=
  let '(st', evs) := call_renderGrid st in
  if absent (rootEl st') then (st', evs) else (st', evs).

(** One action; the completion or failure of a load needs a suspended
    invocation. *)
Definition step (a : Action) (st : State) : option (State * list Event) :=
  match a with
  | Mount el => Some (onMounted (set_rootEl (Some el) st))
  | Change v => Some (watch_callback v (set_spec_value v st))
  | Loaded =>
      match suspended st with
      | O => None
      | S n => Some (renderGrid_resume (set_suspended n st))
      end
  | LoadedThrows =>
      match suspended st with
      | O => None
      | S n => renderGrid_resume_throws (set_suspended n st)
      end
  | LoadFailed =>
      match suspended st with
      | O => None
      | S n => Some (set_suspended n st, [EImportFailed])
      end
  | Unmount => Some (set_rootEl None st, [])
  end.

Fixpoint run (acts : list Action) (st : State)
  : option (State * list Event) :=
  match acts with
  | [] => Some (st, [])
  | a :: rest =>
      match step a st with
      | Some (st1, e1) =>
          match run rest st1 with
          | Some (st2, e2) => Some (st2, (e1 ++ e2)%list)
          | None => None
          end
      | None => None
      end
  end.

End Component.

(* ================================================================== *)
(** ** The documentation manifest *)

(** The JSON document that configures the documentation site, as the value
    it denotes. *)
Definition manifest : JsVal :=
  JObj
    [ ("$schema", JStr "https://mintlify.com/schema.json");
      ("name", JStr "Starter Kit");
      ("logo",
       JObj
         [ ("dark", JStr "/logo/dark.svg");
           ("light", JStr "/logo/writer_logo.svg") ]);
      ("favicon", JStr "/favicon.svg");
      ("colors",
       JObj
         [ ("primary", JStr "#0D9373");
           ("light", JStr "#07C983");
           ("dark", JStr "#0D9373");
           ("anchors",
            JObj
              [ ("from", JStr "#0D9373");
                ("to", JStr "#07C983") ]) ]);
      ("tabs",
       JArr
         [ JObj
           [ ("name", JStr "Framework");
             ("url", JStr "docs/framework") ];
           JObj
           [ ("name", JStr "Components");
             ("url", JStr "docs/components") ] ]);
      ("navigation",
       JArr
         [ JObj
           [ ("group", JStr "Getting started");
             ("pages",
              JArr
                [ JStr "docs/framework/introduction";
                  JStr "docs/framework/quickstart";
                  JStr "docs/framework/ai-module" ]) ];
           JObj
           [ ("group", JStr "Guides");
             ("pages",
              JArr
                [ JStr "docs/framework/application-state";
                  JStr "docs/framework/event-handlers";
                  JStr "docs/framework/builder-basics";
                  JStr "docs/framework/handling-inputs";
                  JStr "docs/framework/backend-driven-ui";
                  JStr "docs/framework/stylesheets";
                  JStr "docs/framework/frontend-scripts";
                  JStr "docs/framework/custom-components";
                  JStr "docs/framework/authentication" ]) ];
           JObj
           [ ("group", JStr "Tutorials");
             ("pages",
              JArr
                [ JStr "docs/framework/chat-assistant";
                  JStr "docs/framework/social-post-generator";
                  JStr "docs/framework/product-description-generator" ]) ];
           JObj
           [ ("group", JStr "Deployment");
             ("pages",
              JArr
                [ JStr "docs/framework/deploy-with-docker";
                  JStr "docs/framework/testing" ]) ];
           JObj
           [ ("group", JStr "Advanced");
             ("pages",
              JArr
                [ JStr "docs/framework/repeater";
                  JStr "docs/framework/backend-initiated-actions";
                  JStr "docs/framework/page-routes";
                  JStr "docs/framework/sessions";
                  JStr "docs/framework/custom-server";
                  JStr "docs/framework/state-schema" ]) ];
           JObj
           [ ("group", JStr "Layout");
             ("pages",
              JArr
                [ JStr "docs/components/column";
                  JStr "docs/components/columns";
                  JStr "docs/components/header";
                  JStr "docs/components/horizontalstack";
                  JStr "docs/components/section";
                  JStr "docs/components/separator";
                  JStr "docs/components/sidebar";
                  JStr "docs/components/step";
                  JStr "docs/components/steps";
                  JStr "docs/components/tab";
                  JStr "docs/components/tabs" ]) ];
           JObj
           [ ("group", JStr "Content");
             ("pages",
              JArr
                [ JStr "docs/components/avatar";
                  JStr "docs/components/chatbot";
                  JStr "docs/components/dataframe";
                  JStr "docs/components/heading";
                  JStr "docs/components/icon";
                  JStr "docs/components/image";
                  JStr "docs/components/link";
                  JStr "docs/components/message";
                  JStr "docs/components/metric";
                  JStr "docs/components/plotlygraph";
                  JStr "docs/components/tags";
                  JStr "docs/components/text";
                  JStr "docs/components/vegalitechart";
                  JStr "docs/components/videoplayer" ]) ];
           JObj
           [ ("group", JStr "Input");
             ("pages",
              JArr
                [ JStr "docs/components/checkboxinput";
                  JStr "docs/components/dateinput";
                  JStr "docs/components/dropdowninput";
                  JStr "docs/components/fileinput";
                  JStr "docs/components/multiselectinput";
                  JStr "docs/components/numberinput";
                  JStr "docs/components/radioinput";
                  JStr "docs/components/ratinginput";
                  JStr "docs/components/selectinput";
                  JStr "docs/components/sliderinput";
                  JStr "docs/components/switchinput";
                  JStr "docs/components/textareainput";
                  JStr "docs/components/textinput" ]) ];
           JObj
           [ ("group", JStr "Other");
             ("pages",
              JArr
                [ JStr "docs/components/button";
                  JStr "docs/components/html";
                  JStr "docs/components/pagination";
                  JStr "docs/components/repeater";
                  JStr "docs/components/reuse";
                  JStr "docs/components/timer";
                  JStr "docs/components/webcamcapture" ]) ];
           JObj
           [ ("group", JStr "Embed");
             ("pages",
              JArr
                [ JStr "docs/components/googlemaps";
                  JStr "docs/components/mapbox";
                  JStr "docs/components/pdf";
                  JStr "docs/components/iframe" ]) ] ]);
      ("footerSocials",
       JObj
         [ ("x", JStr "https://x.com/mintlify");
           ("github", JStr "https://github.com/mintlify");
           ("linkedin", JStr "https://www.linkedin.com/company/mintsearch") ]) ].

(* ================================================================== *)
(** ** Observations on states and traces *)

Definition is_new_grid (e : Event) : bool :=
  match e with
  | ENewGrid _ _ => true
  | _ => false
  end.

Definition is_call (e : Event) : bool :=
  match e with
  | ECallRenderGrid => true
  | _ => false
  end.

(** How many [Grid]s a trace constructs: the constructor calls that
    return. *)
Definition grids_created (evs : list Event) : nat :=
  List.length (filter is_new_grid evs).

(** How many times a trace calls [renderGrid]. *)
Definition renderGrid_calls (evs : list Event) : nat :=
  List.length (filter is_call evs).

(** What a trace does besides calling [renderGrid]: module loads, widget
    constructions, row updates, exceptions. *)
Definition effects (evs : list Event) : list Event :=
  filter (fun e => negb (is_call e)) evs.

(** The arguments of the [setRowData] calls of a trace, whether they
    returned or threw, in order. *)
Definition rows_set (evs : list Event) : list JsVal :=
  flat_map (fun e =>
              match e with
              | ESetRowData r | ESetRowDataThrows r => [r]
              | _ => []
              end) evs.

(** The number of instances [aggrid] holds: 0 or 1. *)
Definition instances (st : State) : nat :=
  if absent (aggrid st) then 0 else 1.

(** A state the component can be in, starting with the value [v0]. *)
Definition reachable (SSR : bool) (v0 : JsVal) (st : State) : Prop :=
  exists acts evs, run SSR acts (init v0) = Some (st, evs).

(** The widget shows the rows of the specification value [v]. *)
Definition displays (g : Grid) (v : JsVal) : Prop :=
  get_prop v "rowData" = Some (rowData g).

(** Changes that come one at a time: each is followed by the completion
    of the module load it started. *)
Fixpoint refreshes (vs : list JsVal) : list Action :=
  match vs with
  | [] => []
  | v :: rest => Change v :: Loaded :: refreshes rest
  end.

(** An invocation is in flight, or a widget exists. *)
Definition live (st : State) : Prop :=
  0 < suspended st \/ aggrid st <> None.

(** A live component runs in the browser and is mounted. *)
Definition consistent (SSR : bool) (st : State) : Prop :=
  live st -> SSR = false /\ rootEl st <> None.

(** A live component runs in the browser. *)
Definition in_browser (SSR : bool) (st : State) : Prop :=
  live st -> SSR = false.

(** "Each change refreshes the displayed rows through [setRowData]": after
    a change to [v] in a state with a widget, the loads that complete next
    call [setRowData] at least once. *)
Definition every_change_refreshes (SSR : bool) : Prop :=
  forall v0 st g v,
    reachable SSR v0 st ->
    aggrid st = Some g ->
    exists n st' evs,
      run SSR (Change v :: repeat Loaded n) st = Some (st', evs)
      /\ rows_set evs <> [].

(** "The final displayed rows reflect the last written value": at rest, a
    widget shows the rows of the current value. *)
Definition last_write_wins (SSR : bool) : Prop :=
  forall v0 acts st evs g,
    run SSR acts (init v0) = Some (st, evs) ->
    suspended st = 0 ->
    aggrid st = Some g ->
    displays g (spec_value st).

(** A navigation entry: a record of a [group] label and a list [pages] of
    page identifiers. *)
Definition is_page (v : JsVal) : Prop := exists id, v = JStr id.

Definition is_nav_entry (v : JsVal) : Prop :=
  exists label pages,
    v = JObj [("group", JStr label); ("pages", JArr pages)]
    /\ Forall is_page pages.

Definition is_record (v : JsVal) : Prop := exists ps, v = JObj ps.

(** The rows a specification value asks for. *)
Definition rows_of (v : JsVal) : JsVal := prop_or_undefined v "rowData".

(** A constructor call, whether it returned or threw. *)
Definition is_construction (e : Event) : bool :=
  match e with
  | ENewGrid _ _ | ENewGridThrows _ _ => true
  | _ => false
  end.

Definition constructions (evs : list Event) : nat :=
  List.length (filter is_construction evs).

Definition is_import_failure (e : Event) : bool :=
  match e with
  | EImportFailed => true
  | _ => false
  end.

Definition imports_failed (evs : list Event) : nat :=
  List.length (filter is_import_failure evs).

Definition is_unmount (a : Action) : bool :=
  match a with
  | Unmount => true
  | _ => false
  end.

(** Actions under which the component stays mounted and the current value
    stays truthy. *)
Definition keeps_refreshing (a : Action) : bool :=
  match a with
  | Change v => truthy v
  | Unmount => false
  | _ => true
  end.

(** Mounts, changes and loads that complete with their library call
    returning: no failed load, no library call that throws where it could
    have returned, no unmount. *)
Definition undisturbed (a : Action) : bool :=
  match a with
  | Mount _ | Change _ | Loaded => true
  | _ => false
  end.

(** At rest, a widget with reachable [api] holds the rows of the current
    value when these are an array. *)
Definition settled (st : State) : Prop :=
  forall g rows,
    aggrid st = Some g ->
    is_object (gridOptions g) = true ->
    suspended st = 0 ->
    get_prop (spec_value st) "rowData" = Some (JArr rows) ->
    displays g (spec_value st).


(** Case analysis of one step, following the branches of the code. *)
Ltac step_cases :=
  unfold step, onMounted, watch_callback, call_renderGrid, renderGrid,
    renderGrid_resume, renderGrid_resume_throws in *;
  repeat match goal with
         | |- context [if ?b then _ else _] => destruct b eqn:?
         | |- context [match ?x with _ => _ end] => destruct x eqn:?
         | H : context [if ?b then _ else _] |- _ => destruct b eqn:?
         | H : context [match ?x with _ => _ end] |- _ => destruct x eqn:?
         end.

Ltac step_inv H :=
  step_cases; try discriminate H; inversion H; subst; clear H; simpl in *.

(* ================================================================== *)
(** ** Further observations on runs *)

Definition is_import (e : Event) : bool :=
  match e with
  | EImport => true
  | _ => false
  end.

(** What a load that was started ends in: a constructor call or a
    [setRowData] call, returned or thrown, a [TypeError] of the
    component's own reads, or the failure of the import. *)
Definition is_completion (e : Event) : bool :=
  match e with
  | ECallRenderGrid | EImport => false
  | _ => true
  end.

Definition imports (evs : list Event) : nat :=
  List.length (filter is_import evs).

Definition completions (evs : list Event) : nat :=
  List.length (filter is_completion evs).

(** The actions whose handler reaches a [renderGrid()] call: the mount
    hook always, the watch callback for a truthy value. *)
Definition calls_renderGrid (a : Action) : bool :=
  match a with
  | Mount _ => true
  | Change v => truthy v
  | _ => false
  end.

Definition is_mount (a : Action) : bool :=
  match a with
  | Mount _ => true
  | _ => false
  end.

(** A constructor call whose container is an element of [pool]. *)
Definition built_on (pool : Element -> Prop) (e : Event) : Prop :=
  match e with
  | ENewGrid el _ | ENewGridThrows el _ => exists x, el = Some x /\ pool x
  | _ => True
  end.

(** The mount target and the container of the widget, when there are any,
    are elements of [pool]. *)
Definition placed (pool : Element -> Prop) (st : State) : Prop :=
  (forall x, rootEl st = Some x -> pool x)
  /\ (forall g, aggrid st = Some g ->
                exists x, eGridDiv g = Some x /\ pool x).

(** Actions that write objects only. *)
Definition writes_objects (a : Action) : bool :=
  match a with
  | Change v => is_object v
  | _ => true
  end.

(** No [TypeError] of the component's own reads, and no constructor call
    on options that are not an object. *)
Definition sound_event (e : Event) : bool :=
  match e with
  | ENewGrid _ opts | ENewGridThrows _ opts => is_object opts
  | ETypeError => false
  | _ => true
  end.

(* ================================================================== *)
(** ** Reading the manifest *)

Definition strings_of (v : JsVal) : list string :=
  match v with
  | JArr items =>
      flat_map (fun x => match x with JStr s => [s] | _ => [] end) items
  | _ => []
  end.

(** The groups of [navigation], each with its pages. *)
Definition nav_groups (m : JsVal) : list (string * list string) :=
  match prop_or_undefined m "navigation" with
  | JArr entries =>
      map (fun e =>
             (match prop_or_undefined e "group" with
              | JStr label => label
              | _ => EmptyString
              end,
              strings_of (prop_or_undefined e "pages")))
          entries
  | _ => []
  end.

(** The [url]s of [tabs]. *)
Definition tab_urls (m : JsVal) : list string :=
  match prop_or_undefined m "tabs" with
  | JArr tabs =>
      flat_map (fun t =>
                  match prop_or_undefined t "url" with
                  | JStr u => [u]
                  | _ => []
                  end)
               tabs
  | _ => []
  end.

(** [page] lies below the directory [url]. *)
Definition under (url page : string) : bool :=
  String.prefix (url ++ "/") page.

Fixpoint nodupb (l : list string) : bool :=
  match l with
  | [] => true
  | x :: r => negb (existsb (String.eqb x) r) && nodupb r
  end.

(* ================================================================== *)
(** ** The stories *)

(** What a story's [setup] hands to the component through [provide]: the
    evaluated fields, which are [computed] over the story's [args] and so a
    function of the args as they are when read, the disabled flag, and the
    core. *)
Record Provided (Core : Type) : Type := {
  evaluated : list (string * JsVal) -> list (string * JsVal);
  isDisabled : bool;
  core : Core
}.

Arguments evaluated {Core} _ _.
Arguments isDisabled {Core} _.
Arguments core {Core} _.

(** [args.k], on the args object. *)
Definition arg (args : list (string * JsVal)) (k : string) : JsVal :=
  prop_or_undefined (JObj args) k.

Definition text_control : JsVal := JObj [("control", JStr "text")].

(** The object inside [computed(() => { return {...}; })], the same in
    both stories. *)
Definition rootStyle : JsVal :=
  JObj
    [ ("--accentColor", JStr "#29cf00");
      ("--buttonColor", JStr "#ffffff");
      ("--emptinessColor", JStr "#e9eef1");
      ("--separatorColor", JStr "rgba(0, 0, 0, 0.07)");
      ("--primaryTextColor", JStr "#202829");
      ("--buttonTextColor", JStr "#202829");
      ("--secondaryTextColor", JStr "#5d7275");
      ("--containerBackgroundColor", JStr "#ffffff") ].

Module CoreTabsStories.

(** [meta.argTypes]. *)
Definition argTypes : list (string * JsVal) :=
  [ ("accentColor", text_control);
    ("primaryTextColor", text_control);
    ("secondaryTextColor", text_control);
    ("containerBackgroundColor", text_control);
    ("containerShadow", text_control);
    ("separatorColor", text_control);
    ("buttonColor", text_control);
    ("buttonTextColor", text_control);
    ("buttonShadow", text_control);
    ("cssClasses", text_control) ].

(** The object given to [provide(injectionKeys.evaluatedFields, ...)]:
    each member is [computed(() => args.<name>)]. *)
Definition evaluatedFields (args : list (string * JsVal))
  : list (string * JsVal) :=
  [ ("accentColor", arg args "accentColor");
    ("primaryTextColor", arg args "primaryTextColor");
    ("secondaryTextColor", arg args "secondaryTextColor");
    ("containerBackgroundColor", arg args "containerBackgroundColor");
    ("containerShadow", arg args "containerShadow");
    ("separatorColor", arg args "separatorColor");
    ("buttonColor", arg args "buttonColor");
    ("buttonTextColor", arg args "buttonTextColor");
    ("buttonShadow", arg args "buttonShadow");
    ("cssClasses", arg args "cssClasses") ].

(** [setup()] of the [Sample] story: [ss] is the core made by
    [generateCore()]; [args.rootStyle] is assigned, then the three values
    are provided.  The result is the args after the assignment and what
    was provided. *)
Definition setup {Core : Type} (ss : Core) (args : list (string * JsVal))
  : list (string * JsVal) * Provided Core :=
  (set_prop "rootStyle" rootStyle args,
   {| evaluated := evaluatedFields; isDisabled := false; core := ss |}).

End CoreTabsStories.

Module CoreSeparatorStories.

(** [meta.argTypes]. *)
Definition argTypes : list (string * JsVal) :=
  [ ("separatorColor", text_control);
    ("cssClasses", text_control) ].

(** The object given to [provide(injectionKeys.evaluatedFields, ...)]. *)
Definition evaluatedFields (args : list (string * JsVal))
  : list (string * JsVal) :=
  [ ("separatorColor", arg args "separatorColor");
    ("cssClasses", arg args "cssClasses") ].

(** [setup()] of the [Sample] story. *)
Definition setup {Core : Type} (ss : Core) (args : list (string * JsVal))
  : list (string * JsVal) * Provided Core :=
  (set_prop "rootStyle" rootStyle args,
   {| evaluated := evaluatedFields; isDisabled := false; core := ss |}).

End CoreSeparatorStories.

(* ================================================================== *)
(** ** The guards of renderGrid *)

(** C1: when the evaluated specification value is falsy or the mount
    target is absent, [renderGrid] returns the state it was given and does
    nothing to the outside: no module load, no [Grid], [aggrid] as it was,
    and no invocation left suspended. *)
Theorem renderGrid_skips_when_absent (SSR : bool) (st : State) :
  falsy (spec_value st) = true \/ rootEl st = None ->
  renderGrid SSR st = (st, [])
  /\ grids_created (snd (renderGrid SSR st)) = 0
  /\ aggrid (fst (renderGrid SSR st)) = aggrid st.
Proof.
  intros H.
  assert (E : renderGrid SSR st = (st, [])).
  { unfold renderGrid. destruct SSR; [reflexivity|].
    destruct H as [H | H]; rewrite H; [reflexivity|].
    rewrite orb_true_r. reflexivity. }
  rewrite E. repeat split.
Qed.

Lemma renderGrid_skips_when_absent_witness :
  (falsy (spec_value (set_rootEl (Some 0) (init JUndefined))) = true
   \/ rootEl (set_rootEl (Some 0) (init JUndefined)) = None)
  /\ renderGrid false (set_rootEl (Some 0) (init JUndefined))
     = (set_rootEl (Some 0) (init JUndefined), []).
Proof.
  split.
  - left. reflexivity.
  - apply (renderGrid_skips_when_absent false
             (set_rootEl (Some 0) (init JUndefined))).
    left. reflexivity.
Defined.

Lemma step_ssr (a : Action) (st st' : State) (evs : list Event) :
  suspended st = 0 -> aggrid st = None ->
  step true a st = Some (st', evs) ->
  suspended st' = 0 /\ aggrid st' = None /\ effects evs = [].
Proof.
  intros Hs Hg H.
  destruct a as [el | v | | | |]; simpl in H;
    try (rewrite Hs in H; discriminate H).
  - inversion H; subst. auto.
  - unfold watch_callback in H. destruct (falsy v);
      inversion H; subst; auto.
  - inversion H; subst. auto.
Qed.

Lemma run_ssr (acts : list Action) :
  forall st st' evs,
    suspended st = 0 -> aggrid st = None ->
    run true acts st = Some (st', evs) ->
    suspended st' = 0 /\ aggrid st' = None /\ effects evs = [].
Proof.
  induction acts as [| a rest IH]; simpl; intros st st' evs Hs Hg H.
  - inversion H; subst. auto.
  - destruct (step true a st) as [[st1 e1]|] eqn:Es; [|discriminate].
    destruct (run true rest st1) as [[st2 e2]|] eqn:Er; [|discriminate].
    inversion H; subst.
    destruct (step_ssr a st st1 e1 Hs Hg Es) as (Hs1 & Hg1 & He1).
    destruct (IH st1 st' e2 Hs1 Hg1 Er) as (Hs2 & Hg2 & He2).
    unfold effects in *. rewrite filter_app, He1, He2. auto.
Qed.

(** C10: under server-side rendering [renderGrid] returns at once, for
    every state: the state is returned as it was, no module load is
    started and no widget is built.  So whatever happens to a component
    rendered on the server, it starts no load, builds no widget and keeps
    [aggrid] null. *)
Theorem renderGrid_ssr_no_effect (st : State) :
  renderGrid true st = (st, [])
  /\ forall v0 acts st' evs,
      run true acts (init v0) = Some (st', evs) ->
      effects evs = [] /\ aggrid st' = None /\ suspended st' = 0.
Proof.
  split; [reflexivity|].
  intros v0 acts st' evs H.
  destruct (run_ssr acts (init v0) st' evs eq_refl eq_refl H)
    as (Hs & Hg & He).
  auto.
Qed.

Lemma renderGrid_ssr_no_effect_witness :
  exists st evs,
    run true [Mount 0; Change defaultSpec] (init defaultSpec)
    = Some (st, evs)
    /\ effects evs = [] /\ aggrid st = None /\ suspended st = 0.
Proof.
  eexists. eexists. split.
  - reflexivity.
  - refine (proj2 (renderGrid_ssr_no_effect (init defaultSpec))
              defaultSpec [Mount 0; Change defaultSpec] _ _ _).
    reflexivity.
Defined.

(** C9: when the value changes to a falsy one, the watch callback returns
    without calling [renderGrid]; the step changes the stored value only,
    so the widget and its rows stay as they were.  The change starts no
    load: when none was pending, none can complete afterwards. *)
Theorem falsy_change_leaves_widget (SSR : bool) (v : JsVal) (st : State) :
  falsy v = true ->
  watch_callback SSR v (set_spec_value v st) = (set_spec_value v st, [])
  /\ step SSR (Change v) st = Some (set_spec_value v st, [])
  /\ aggrid (set_spec_value v st) = aggrid st
  /\ suspended (set_spec_value v st) = suspended st
  /\ (suspended st = 0 -> step SSR Loaded (set_spec_value v st) = None).
Proof.
  intros H. unfold step, watch_callback. rewrite H.
  repeat split. simpl. intros ->. reflexivity.
Qed.

Lemma falsy_change_leaves_widget_witness :
  falsy (JStr EmptyString) = true
  /\ step false (Change (JStr EmptyString))
       (set_aggrid (Some (new_Grid (Some 0) defaultSpec))
          (set_rootEl (Some 0) (init defaultSpec)))
     = Some (set_spec_value (JStr EmptyString)
               (set_aggrid (Some (new_Grid (Some 0) defaultSpec))
                  (set_rootEl (Some 0) (init defaultSpec))), []).
Proof.
  split.
  - reflexivity.
  - apply (falsy_change_leaves_widget false (JStr EmptyString)
             (set_aggrid (Some (new_Grid (Some 0) defaultSpec))
                (set_rootEl (Some 0) (init defaultSpec)))).
    reflexivity.
Defined.

(* ================================================================== *)
(** ** The refresh of an existing widget *)



Lemma set_aggrid_same (st : State) (g : Grid) :
  aggrid st = Some g -> set_aggrid (Some g) st = st.
Proof. destruct st; simpl; intros ->; reflexivity. Qed.




(* ================================================================== *)
(** ** The metadata *)

Lemma renderGrid_meta (SSR : bool) (st : State) :
  meta (fst (renderGrid SSR st)) = meta st.
Proof. step_cases; reflexivity. Qed.

Lemma renderGrid_resume_meta (st : State) :
  meta (fst (renderGrid_resume st)) = meta st.
Proof. step_cases; reflexivity. Qed.

Lemma watch_callback_meta (SSR : bool) (v : JsVal) (st : State) :
  meta (fst (watch_callback SSR v st)) = meta st.
Proof. step_cases; reflexivity. Qed.

Lemma onMounted_meta (SSR : bool) (st : State) :
  meta (fst (onMounted SSR st)) = meta st.
Proof. step_cases; reflexivity. Qed.

Lemma step_meta (SSR : bool) (a : Action) (st st' : State)
  (evs : list Event) :
  step SSR a st = Some (st', evs) -> meta st' = meta st.
Proof.
  intros H. step_inv H; reflexivity.
Qed.

(** An invariant of the steps is an invariant of the runs. *)
Lemma run_invariant (SSR : bool) (P : State -> Prop) :
  (forall a st st' evs, P st -> step SSR a st = Some (st', evs) -> P st') ->
  forall acts st st' evs,
    P st -> run SSR acts st = Some (st', evs) -> P st'.
Proof.
  intros Hstep acts.
  induction acts as [| a rest IH]; simpl; intros st st' evs HP H.
  - inversion H; subst. exact HP.
  - destruct (step SSR a st) as [[st1 e1]|] eqn:Es; [|discriminate].
    destruct (run SSR rest st1) as [[st2 e2]|] eqn:Er; [|discriminate].
    inversion H; subst.
    eapply IH; [|exact Er]. eapply Hstep; [exact HP | exact Es].
Qed.

(** C5: no operation of the component writes to the metadata record:
    [renderGrid] (up to and after the module load), the watch callback and
    the mount hook return a state with the same [meta], and so the record
    is the declared [streamsync] in every state the component reaches. *)
Theorem metadata_immutable (SSR : bool) (st : State) (v : JsVal) :
  meta (fst (renderGrid SSR st)) = meta st
  /\ meta (fst (renderGrid_resume st)) = meta st
  /\ meta (fst (watch_callback SSR v st)) = meta st
  /\ meta (fst (onMounted SSR st)) = meta st
  /\ (forall v0 st', reachable SSR v0 st' -> meta st' = streamsync).
Proof.
  split; [apply renderGrid_meta|].
  split; [apply renderGrid_resume_meta|].
  split; [apply watch_callback_meta|].
  split; [apply onMounted_meta|].
  intros v0 st' (acts & evs & H).
  apply (run_invariant SSR (fun s => meta s = streamsync)) in H;
    [exact H | | reflexivity].
  intros a s s' e Hs Hstep. rewrite (step_meta _ _ _ _ _ Hstep). exact Hs.
Qed.

Lemma metadata_immutable_witness :
  exists st,
    reachable false defaultSpec st
    /\ aggrid st = Some (new_Grid (Some 0) defaultSpec)
    /\ meta st = streamsync.
Proof.
  exists (set_aggrid (Some (new_Grid (Some 0) defaultSpec))
            (set_rootEl (Some 0) (init defaultSpec))).
  assert (R : reachable false defaultSpec
                (set_aggrid (Some (new_Grid (Some 0) defaultSpec))
                   (set_rootEl (Some 0) (init defaultSpec)))).
  { exists [Mount 0; Loaded]. eexists. reflexivity. }
  split; [exact R|]. split; [reflexivity|].
  exact (proj2 (proj2 (proj2 (proj2
           (metadata_immutable false (init defaultSpec) JNull))))
           defaultSpec _ R).
Defined.

(** C7: the keys of the [fields] map are pairwise different; the map has
    the one key [spec]. *)
Theorem field_names_unique :
  NoDup (map fst (fields streamsync))
  /\ map fst (fields streamsync) = ["spec"].
Proof.
  split; [|reflexivity].
  simpl. constructor; [intros []|constructor].
Qed.

(** C6: every declared field has type [Object] and a default that is a
    JSON text denoting an object; the default of [spec] parses back to the
    object with a [columnDefs] list of three records and a [rowData] list
    of three records, which is [defaultSpec]. *)
Theorem default_valid_under_type :
  Forall (fun kf =>
            type (snd kf) = Object
            /\ exists text ps,
                default (snd kf) = Some text
                /\ JSON.parse text = Some (JObj ps))
         (fields streamsync)
  /\ exists f text cols rows,
      fields streamsync = [("spec", f)]
      /\ type f = Object
      /\ default f = Some text
      /\ JSON.parse text
         = Some (JObj [("columnDefs", JArr cols); ("rowData", JArr rows)])
      /\ List.length cols = 3 /\ Forall is_record cols
      /\ List.length rows = 3 /\ Forall is_record rows
      /\ JSON.parse text = Some defaultSpec.
Proof.
  split.
  - constructor; [|constructor]. split; [reflexivity|].
    eexists. eexists. split; [reflexivity|]. vm_compute. reflexivity.
  - eexists. eexists. eexists. eexists.
    split; [reflexivity|]. split; [reflexivity|]. split; [reflexivity|].
    split; [vm_compute; reflexivity|].
    split; [reflexivity|].
    split; [repeat constructor; eexists; reflexivity|].
    split; [reflexivity|].
    split; [repeat constructor; eexists; reflexivity|].
    vm_compute. reflexivity.
Qed.

(** C8: the [navigation] member of the manifest is an array, and each of
    its entries is a record of a [group] string and a [pages] list of
    strings. *)
Theorem navigation_shape :
  exists entries,
    get_prop manifest "navigation" = Some (JArr entries)
    /\ Forall is_nav_entry entries
    /\ List.length entries = 10.
Proof.
  eexists. split; [vm_compute; reflexivity|]. split; [|reflexivity].
  repeat (apply Forall_cons || apply Forall_nil);
    (eexists; eexists; split; [reflexivity|]);
    repeat (apply Forall_cons || apply Forall_nil); eexists; reflexivity.
Qed.

(* ================================================================== *)
(** ** Invariants of the runs *)

Lemma grids_created_app (e1 e2 : list Event) :
  grids_created (e1 ++ e2) = grids_created e1 + grids_created e2.
Proof.
  unfold grids_created. rewrite filter_app, length_app. reflexivity.
Qed.

Lemma rows_set_app (e1 e2 : list Event) :
  rows_set (e1 ++ e2) = (rows_set e1 ++ rows_set e2)%list.
Proof. unfold rows_set. apply flat_map_app. Qed.

Lemma renderGrid_calls_app (e1 e2 : list Event) :
  renderGrid_calls (e1 ++ e2) = renderGrid_calls e1 + renderGrid_calls e2.
Proof.
  unfold renderGrid_calls. rewrite filter_app, length_app. reflexivity.
Qed.

(** Every [Grid] a step builds is the one [aggrid] goes from [null] to. *)
Lemma step_instances (SSR : bool) (a : Action) (st st' : State)
  (evs : list Event) :
  step SSR a st = Some (st', evs) ->
  grids_created evs + instances st = instances st'.
Proof.
  intros H.
  step_inv H; unfold instances, grids_created; simpl;
    repeat match goal with
           | E : aggrid _ = _ |- _ => rewrite E
           end; reflexivity.
Qed.

Lemma run_instances (SSR : bool) (acts : list Action) :
  forall st st' evs,
    run SSR acts st = Some (st', evs) ->
    grids_created evs + instances st = instances st'.
Proof.
  induction acts as [| a rest IH]; simpl; intros st st' evs H.
  - inversion H; subst. reflexivity.
  - destruct (step SSR a st) as [[st1 e1]|] eqn:Es; [|discriminate].
    destruct (run SSR rest st1) as [[st2 e2]|] eqn:Er; [|discriminate].
    inversion H; subst.
    rewrite grids_created_app.
    rewrite <- (IH _ _ _ Er), <- (step_instances _ _ _ _ _ Es). lia.
Qed.

Lemma init_consistent (SSR : bool) (v0 : JsVal) : consistent SSR (init v0).
Proof. intros [H | H]; simpl in H; [lia | congruence]. Qed.

Lemma step_consistent (SSR : bool) (a : Action) (st st' : State)
  (evs : list Event) :
  is_unmount a = false ->
  consistent SSR st -> step SSR a st = Some (st', evs) -> consistent SSR st'.
Proof.
  intros U C H. unfold consistent, live in *.
  destruct a; try discriminate U; clear U.
  all: step_inv H; intros L;
    first
      [ split; [reflexivity | congruence]
      | destruct C as [C1 C2];
        [ solve [ left; lia
                | right; congruence
                | destruct L as [L | L]; [left; lia | right; congruence] ]
        | split; congruence ]
      | split; [reflexivity|];
        match goal with
        | E : (_ || absent ?r)%bool = false |- _ =>
            apply orb_false_elim in E; destruct E as [_ E];
            destruct r; [congruence | discriminate]
        end ].
Qed.

Lemma run_consistent (SSR : bool) (acts : list Action) :
  forall st st' evs,
    forallb (fun a => negb (is_unmount a)) acts = true ->
    consistent SSR st ->
    run SSR acts st = Some (st', evs) ->
    consistent SSR st'.
Proof.
  induction acts as [| a rest IH]; simpl; intros st st' evs U C H.
  - inversion H; subst. exact C.
  - apply andb_true_iff in U. destruct U as [Ua Ur].
    apply negb_true_iff in Ua.
    destruct (step SSR a st) as [[st1 e1]|] eqn:Es; [|discriminate].
    destruct (run SSR rest st1) as [[st2 e2]|] eqn:Er; [|discriminate].
    inversion H; subst.
    exact (IH _ _ _ Ur (step_consistent _ _ _ _ _ Ua C Es) Er).
Qed.

Lemma init_in_browser (SSR : bool) (v0 : JsVal) : in_browser SSR (init v0).
Proof. intros [H | H]; simpl in H; [lia | congruence]. Qed.

Lemma step_in_browser (SSR : bool) (a : Action) (st st' : State)
  (evs : list Event) :
  in_browser SSR st -> step SSR a st = Some (st', evs) -> in_browser SSR st'.
Proof.
  intros C H. unfold in_browser, live in *.
  step_inv H; intros L;
    first
      [ reflexivity
      | apply C;
        solve [ left; lia
              | right; congruence
              | destruct L as [L | L]; [left; lia | right; congruence] ] ].
Qed.

Lemma run_in_browser (SSR : bool) (v0 : JsVal) (acts : list Action)
  (st : State) (evs : list Event) :
  run SSR acts (init v0) = Some (st, evs) -> in_browser SSR st.
Proof.
  apply (run_invariant SSR (in_browser SSR) (step_in_browser SSR)).
  apply init_in_browser.
Qed.

Lemma truthy_not_nullish (v : JsVal) : truthy v = true -> nullish v = false.
Proof. destruct v; simpl; congruence. Qed.

Lemma get_prop_present (v : JsVal) (k : string) :
  nullish v = false -> get_prop v k = Some (prop_or_undefined v k).
Proof.
  unfold prop_or_undefined. destruct v; simpl; congruence.
Qed.

(** *** Single steps *)

Lemma step_change_truthy (st : State) (el : Element) (v : JsVal) :
  rootEl st = Some el ->
  truthy v = true ->
  step false (Change v) st
  = Some (set_suspended (S (suspended st)) (set_spec_value v st),
          [ECallRenderGrid; EImport]).
Proof.
  intros Er Ht.
  unfold step, watch_callback, call_renderGrid, renderGrid, falsy.
  simpl. rewrite Ht, Er. reflexivity.
Qed.

Lemma step_mount_truthy (st : State) (el : Element) :
  truthy (spec_value st) = true ->
  step false (Mount el) st
  = Some (set_suspended (S (suspended st)) (set_rootEl (Some el) st),
          [ECallRenderGrid; EImport]).
Proof.
  intros Ht.
  unfold step, onMounted, call_renderGrid, renderGrid, falsy.
  simpl. rewrite Ht. reflexivity.
Qed.

Lemma step_change_falsy (SSR : bool) (st : State) (v : JsVal) :
  falsy v = true ->
  step SSR (Change v) st = Some (set_spec_value v st, []).
Proof.
  intros Hf. unfold step, watch_callback. rewrite Hf. reflexivity.
Qed.

Lemma step_loaded_refresh (SSR : bool) (st : State) (g : Grid) (n : nat)
  (rows : JsVal) :
  suspended st = S n ->
  aggrid st = Some g ->
  is_object (gridOptions g) = true ->
  get_prop (spec_value st) "rowData" = Some rows ->
  setRowData_verdict rows <> MustThrow ->
  step SSR Loaded st
  = Some (set_aggrid (Some (setRowData g rows)) (set_suspended n st),
          [ESetRowData rows]).
Proof.
  intros Es Hg Hn Hr Hv. unfold step. rewrite Es.
  unfold renderGrid_resume. simpl. rewrite Hg, Hn, Hr.
  destruct (setRowData_verdict rows); [reflexivity | congruence | reflexivity].
Qed.

(** The completion of a load with a widget whose [api] can be reached and
    a value that can be read: [setRowData] is called with the rows of the
    value; the instance stays, with its container and options. *)
Lemma step_loaded_passes (SSR : bool) (st st' : State) (g : Grid)
  (rows : JsVal) (evs : list Event) :
  aggrid st = Some g ->
  is_object (gridOptions g) = true ->
  get_prop (spec_value st) "rowData" = Some rows ->
  step SSR Loaded st = Some (st', evs) ->
  (evs = [ESetRowData rows] \/ evs = [ESetRowDataThrows rows])
  /\ exists g',
      st' = set_aggrid (Some g') (set_suspended (pred (suspended st)) st)
      /\ eGridDiv g' = eGridDiv g /\ gridOptions g' = gridOptions g.
Proof.
  intros Hg Hn Hr H. unfold step in H.
  destruct (suspended st) as [| n]; [discriminate|].
  unfold renderGrid_resume in H. simpl in H. rewrite Hg, Hn, Hr in H.
  destruct (setRowData_verdict rows); inversion H; subst; simpl;
    (split; [auto|]).
  - exists (setRowData g rows). auto.
  - exists g. rewrite set_aggrid_same by exact Hg. auto.
  - exists (setRowData g rows). auto.
Qed.

Lemma step_loaded_throws (SSR : bool) (st : State) (g : Grid) (n : nat) :
  suspended st = S n ->
  aggrid st = Some g ->
  get_prop (spec_value st) "rowData" = None ->
  step SSR Loaded st = Some (set_suspended n st, [ETypeError]).
Proof.
  intros Es Hg Hr. unfold step. rewrite Es.
  unfold renderGrid_resume. simpl. rewrite Hg, Hr.
  destruct (is_object (gridOptions g)); reflexivity.
Qed.

Lemma set_fields_back (st : State) (v w : JsVal) :
  set_suspended (suspended st)
    (set_spec_value w (set_suspended (S (suspended st))
                         (set_spec_value v st)))
  = set_spec_value w st.
Proof. destruct st; reflexivity. Qed.

Lemma set_suspended_back (st : State) (v : JsVal) (g : option Grid) :
  set_aggrid g
    (set_suspended (pred (suspended
                            (set_suspended (S (suspended st))
                               (set_spec_value v st))))
       (set_suspended (S (suspended st)) (set_spec_value v st)))
  = set_aggrid g (set_spec_value v st).
Proof. destruct st; reflexivity. Qed.

Lemma constructions_app (e1 e2 : list Event) :
  constructions (e1 ++ e2) = constructions e1 + constructions e2.
Proof.
  unfold constructions. rewrite filter_app, length_app. reflexivity.
Qed.

Lemma imports_failed_app (e1 e2 : list Event) :
  imports_failed (e1 ++ e2) = imports_failed e1 + imports_failed e2.
Proof.
  unfold imports_failed. rewrite filter_app, length_app. reflexivity.
Qed.

(** With a widget in place a step keeps the instance, its container and
    its options, and calls no constructor. *)
Lemma step_keeps_widget (SSR : bool) (a : Action) (st st' : State)
  (evs : list Event) (g : Grid) :
  aggrid st = Some g ->
  step SSR a st = Some (st', evs) ->
  (exists g',
      aggrid st' = Some g'
      /\ eGridDiv g' = eGridDiv g /\ gridOptions g' = gridOptions g)
  /\ constructions evs = 0.
Proof.
  intros Hg H.
  step_inv H;
    try (rewrite Hg in *; discriminate);
    try (split; [exists g; auto | reflexivity]; fail);
    match goal with
    | E : aggrid _ = Some ?w |- _ =>
        rewrite Hg in E; inversion E; subst;
        split; [eexists; simpl; eauto | reflexivity]
    end.
Qed.

Lemma run_keeps_widget (SSR : bool) (acts : list Action) :
  forall st st' evs g,
    aggrid st = Some g ->
    run SSR acts st = Some (st', evs) ->
    (exists g',
        aggrid st' = Some g'
        /\ eGridDiv g' = eGridDiv g /\ gridOptions g' = gridOptions g)
    /\ constructions evs = 0.
Proof.
  induction acts as [| a rest IH]; simpl; intros st st' evs g Hg H.
  - inversion H; subst. split; [exists g; auto | reflexivity].
  - destruct (step SSR a st) as [[st1 e1]|] eqn:Es; [|discriminate].
    destruct (run SSR rest st1) as [[st2 e2]|] eqn:Er; [|discriminate].
    inversion H; subst.
    destruct (step_keeps_widget _ _ _ _ _ _ Hg Es)
      as [(g1 & Hg1 & He1 & Ho1) Hc1].
    destruct (IH _ _ _ _ Hg1 Er) as [(g2 & Hg2 & He2 & Ho2) Hc2].
    split.
    + exists g2. rewrite He2, Ho2. auto.
    + rewrite constructions_app, Hc1, Hc2. reflexivity.
Qed.

Lemma run_app (SSR : bool) (a1 a2 : list Action) :
  forall st st1 st2 e1 e2,
    run SSR a1 st = Some (st1, e1) ->
    run SSR a2 st1 = Some (st2, e2) ->
    run SSR (a1 ++ a2) st = Some (st2, (e1 ++ e2)%list).
Proof.
  induction a1 as [| a rest IH]; simpl; intros st st1 st2 e1 e2 H1 H2.
  - inversion H1; subst. exact H2.
  - destruct (step SSR a st) as [[s e]|]; [|discriminate].
    destruct (run SSR rest s) as [[s' e']|] eqn:Er; [|discriminate].
    inversion H1; subst.
    rewrite (IH _ _ _ _ _ Er H2), app_assoc. reflexivity.
Qed.

Lemma instances_le_1 (st : State) : instances st <= 1.
Proof. unfold instances. destruct (absent (aggrid st)); lia. Qed.

(** *** Refreshes *)

(** One change to a truthy value, then the completion of its load, on a
    widget whose [api] can be reached: one call of [renderGrid], one load,
    one call of [setRowData] with the rows of the value. *)
Lemma refresh_once (SSR : bool) (st : State) (g : Grid) (v : JsVal) :
  consistent SSR st ->
  aggrid st = Some g ->
  is_object (gridOptions g) = true ->
  truthy v = true ->
  exists g' e,
    run SSR [Change v; Loaded] st
    = Some (set_aggrid (Some g') (set_spec_value v st),
            [ECallRenderGrid; EImport; e])
    /\ (e = ESetRowData (rows_of v) \/ e = ESetRowDataThrows (rows_of v))
    /\ eGridDiv g' = eGridDiv g /\ gridOptions g' = gridOptions g.
Proof.
  intros C Hg Hn Ht.
  destruct C as [HS Hr]; [right; congruence|]. subst SSR.
  destruct (rootEl st) as [el|] eqn:Er; [|congruence].
  pose proof (get_prop_present v "rowData" (truthy_not_nullish v Ht)) as G.
  cbn [run].
  erewrite step_change_truthy; [| exact Er | exact Ht].
  destruct (step false Loaded
              (set_suspended (S (suspended st)) (set_spec_value v st)))
    as [[st1 e1]|] eqn:El; [|discriminate El].
  destruct (step_loaded_passes false
              (set_suspended (S (suspended st)) (set_spec_value v st))
              st1 g _ e1 Hg Hn G El)
    as (Hp & g' & Hst & He & Ho).
  rewrite Hst, set_suspended_back.
  destruct Hp as [-> | ->]; eexists g', _; (split; [reflexivity|]);
    unfold rows_of; auto.
Qed.

(** The same when the rows can be taken: the call returns. *)
Lemma refresh_once_returns (SSR : bool) (st : State) (g : Grid)
  (v : JsVal) :
  consistent SSR st ->
  aggrid st = Some g ->
  is_object (gridOptions g) = true ->
  truthy v = true ->
  setRowData_verdict (rows_of v) <> MustThrow ->
  run SSR [Change v; Loaded] st
  = Some (set_aggrid (Some (setRowData g (rows_of v)))
            (set_spec_value v st),
          [ECallRenderGrid; EImport; ESetRowData (rows_of v)]).
Proof.
  intros C Hg Hn Ht Hv.
  destruct C as [HS Hr]; [right; congruence|]. subst SSR.
  destruct (rootEl st) as [el|] eqn:Er; [|congruence].
  pose proof (get_prop_present v "rowData" (truthy_not_nullish v Ht)) as G.
  cbn [run].
  erewrite step_change_truthy; [| exact Er | exact Ht].
  erewrite step_loaded_refresh;
    [| reflexivity | exact Hg | exact Hn | exact G | exact Hv].
  destruct st; reflexivity.
Qed.

Lemma refresh_sequence (SSR : bool) (vs : list JsVal) :
  forall st g,
    consistent SSR st ->
    aggrid st = Some g ->
    is_object (gridOptions g) = true ->
    Forall (fun v => truthy v = true) vs ->
    exists st' evs g',
      run SSR (refreshes vs) st = Some (st', evs)
      /\ constructions evs = 0
      /\ rows_set evs = map rows_of vs
      /\ renderGrid_calls evs = List.length vs
      /\ aggrid st' = Some g'
      /\ eGridDiv g' = eGridDiv g
      /\ gridOptions g' = gridOptions g.
Proof.
  induction vs as [| v rest IH]; intros st g C Hg Hn Hv.
  - exists st, [], g. simpl. repeat split; assumption.
  - inversion Hv as [| ? ? Ht Hrest]; subst.
    destruct (refresh_once SSR st g v C Hg Hn Ht)
      as (g1 & e1 & R & Hp1 & He1 & Ho1).
    assert (C1 : consistent SSR (set_aggrid (Some g1) (set_spec_value v st))).
    { apply (run_consistent SSR [Change v; Loaded] _ _ _ eq_refl C R). }
    rewrite <- Ho1 in Hn.
    destruct (IH _ g1 C1 eq_refl Hn Hrest)
      as (st' & evs & g' & Hrun & Hc & Hr & Hk & Ha & He & Ho).
    exists st', ([ECallRenderGrid; EImport; e1] ++ evs)%list, g'.
    split.
    { change (refreshes (v :: rest))
        with ([Change v; Loaded] ++ refreshes rest)%list.
      exact (run_app SSR _ _ _ _ _ _ _ R Hrun). }
    rewrite constructions_app, rows_set_app, renderGrid_calls_app.
    rewrite Hc, Hr, Hk.
    destruct Hp1 as [-> | ->]; simpl;
      (repeat split; try assumption; try reflexivity;
       [rewrite He; exact He1 | rewrite Ho; exact Ho1]).
Qed.

(** With a widget whose [api] can be reached, a truthy current value and
    the component mounted, a step that neither unmounts nor writes a falsy
    value keeps all three, calls no constructor, calls [renderGrid] once if
    it is a mount or a change, and ends one pending load if it is a
    completion or a failure: in a [setRowData] call or in the failure of
    the import. *)
Lemma step_accounting (SSR : bool) (a : Action) (st st' : State)
  (evs : list Event) (el : option Element) (opts : JsVal) :
  consistent SSR st ->
  truthy (spec_value st) = true ->
  (exists g, aggrid st = Some g /\ gridOptions g = opts /\ eGridDiv g = el) ->
  is_object opts = true ->
  keeps_refreshing a = true ->
  step SSR a st = Some (st', evs) ->
  truthy (spec_value st') = true
  /\ (exists g', aggrid st' = Some g'
                /\ gridOptions g' = opts /\ eGridDiv g' = el)
  /\ constructions evs = 0
  /\ renderGrid_calls evs = (if calls_renderGrid a then 1 else 0)
  /\ List.length (rows_set evs) + imports_failed evs + suspended st'
     = suspended st + renderGrid_calls evs.
Proof.
  intros C Ht (g & Hg & Ho & He) Hn Hw H.
  destruct C as [HS Hr]; [right; congruence|]. subst SSR.
  pose proof (get_prop_present _ "rowData" (truthy_not_nullish _ Ht)) as G.
  rewrite <- Ho in Hn.
  destruct a as [el' | v | | | |]; simpl in Hw, H.
  - (* mount *)
    unfold onMounted, call_renderGrid, renderGrid, falsy in H.
    simpl in H. rewrite Ht in H. simpl in H.
    inversion H; subst; clear H. simpl.
    split; [exact Ht|]. split; [exists g; auto|].
    unfold constructions, renderGrid_calls, imports_failed. simpl.
    repeat split; lia.
  - (* change *)
    unfold watch_callback, call_renderGrid, renderGrid, falsy in H.
    simpl in H. rewrite Hw in H. simpl in H.
    destruct (rootEl st) as [r|]; [|congruence]. simpl in H.
    inversion H; subst; clear H. simpl.
    split; [exact Hw|]. split; [exists g; auto|].
    rewrite Hw.
    unfold constructions, renderGrid_calls, imports_failed. simpl.
    repeat split; lia.
  - (* a load completes *)
    destruct (suspended st) as [| n] eqn:Es; [discriminate|].
    unfold renderGrid_resume in H. simpl in H.
    rewrite Hg, Hn, G in H.
    destruct (setRowData_verdict (prop_or_undefined (spec_value st) "rowData"));
      inversion H; subst; clear H; simpl;
      (split; [exact Ht|]; split; [eexists; simpl; eauto|]);
      unfold constructions, renderGrid_calls, imports_failed; simpl;
      repeat split; lia.
  - (* a load completes and the call throws *)
    destruct (suspended st) as [| n] eqn:Es; [discriminate|].
    unfold renderGrid_resume_throws in H. simpl in H.
    rewrite Hg, Hn, G in H.
    destruct (setRowData_verdict (prop_or_undefined (spec_value st) "rowData"));
      inversion H; subst; clear H; simpl.
    split; [exact Ht|]. split; [eexists; simpl; eauto|].
    unfold constructions, renderGrid_calls, imports_failed. simpl.
    repeat split; lia.
  - (* a load fails *)
    destruct (suspended st) as [| n] eqn:Es; [discriminate|].
    inversion H; subst; clear H; simpl.
    split; [exact Ht|]. split; [eexists; simpl; eauto|].
    unfold constructions, renderGrid_calls, imports_failed. simpl.
    repeat split; lia.
  - discriminate Hw.
Qed.

Lemma keeps_refreshing_mounted (a : Action) :
  keeps_refreshing a = true -> is_unmount a = false.
Proof. destruct a; simpl; congruence. Qed.

Lemma run_accounting (SSR : bool) (acts : list Action)
  (el : option Element) (opts : JsVal) :
  is_object opts = true ->
  forallb keeps_refreshing acts = true ->
  forall st st' evs,
    consistent SSR st ->
    truthy (spec_value st) = true ->
    (exists g, aggrid st = Some g /\ gridOptions g = opts /\ eGridDiv g = el) ->
    run SSR acts st = Some (st', evs) ->
    (exists g', aggrid st' = Some g'
                /\ gridOptions g' = opts /\ eGridDiv g' = el)
    /\ constructions evs = 0
    /\ renderGrid_calls evs = List.length (filter calls_renderGrid acts)
    /\ List.length (rows_set evs) + imports_failed evs + suspended st'
       = suspended st + renderGrid_calls evs.
Proof.
  intros Hn. induction acts as [| a rest IH]; simpl;
    intros Hw st st' evs C Ht Hg H.
  - inversion H; subst. split; [exact Hg|].
    unfold constructions, renderGrid_calls, imports_failed. simpl.
    repeat split; lia.
  - apply andb_true_iff in Hw. destruct Hw as [Hwa Hwr].
    destruct (step SSR a st) as [[st1 e1]|] eqn:Es; [|discriminate].
    destruct (run SSR rest st1) as [[st2 e2]|] eqn:Er; [|discriminate].
    inversion H; subst; clear H.
    destruct (step_accounting SSR a st st1 e1 el opts C Ht Hg Hn Hwa Es)
      as (Ht1 & Hg1 & Hc1 & Hk1 & Hs1).
    pose proof (step_consistent SSR a st st1 e1
                  (keeps_refreshing_mounted a Hwa) C Es) as C1.
    destruct (IH Hwr st1 st' e2 C1 Ht1 Hg1 Er) as (Hg2 & Hc2 & Hk2 & Hs2).
    split; [exact Hg2|].
    rewrite constructions_app, renderGrid_calls_app, rows_set_app,
      imports_failed_app, length_app.
    rewrite Hc1, Hc2, Hk1, Hk2.
    split; [reflexivity|].
    split; [destruct (calls_renderGrid a); reflexivity|].
    rewrite Hk1, Hk2 in *. lia.
Qed.

(* ================================================================== *)
(** ** One widget, refreshed in place *)

(** C2 (amended): over the whole life of the component at most one
    constructor call returns a [Grid], and once [aggrid] holds a widget no
    sequence of actions calls the constructor again.  With a widget whose
    [gridOptions] is an object in place, the component mounted and a
    truthy current value, as long as the component is not unmounted and
    the values written are truthy, every change calls [renderGrid] once
    and every load that completes ends in one [setRowData] call on the
    instance in place, which keeps its container and options: the
    [setRowData] calls made, the loads that failed and the loads still
    pending add up to the calls made and the loads that were pending.
    When such changes come one at a time, the rows passed are the
    [rowData] of each value in turn.  (A change to a falsy value makes no
    refresh.) *)
Theorem one_grid_refreshed_in_place (SSR : bool) (v0 : JsVal)
  (acts : list Action) (st : State) (evs : list Event) :
  run SSR acts (init v0) = Some (st, evs) ->
  grids_created evs <= 1
  /\ (forall g acts' st' evs',
         aggrid st = Some g ->
         run SSR acts' st = Some (st', evs') ->
         constructions evs' = 0 /\ grids_created (evs ++ evs') <= 1)
  /\ (forall g vs,
         aggrid st = Some g ->
         is_object (gridOptions g) = true ->
         rootEl st <> None ->
         Forall (fun v => truthy v = true) vs ->
         exists st' evs' g',
           run SSR (refreshes vs) st = Some (st', evs')
           /\ constructions evs' = 0
           /\ rows_set evs' = map rows_of vs
           /\ renderGrid_calls evs' = List.length vs
           /\ aggrid st' = Some g'
           /\ eGridDiv g' = eGridDiv g
           /\ gridOptions g' = gridOptions g)
  /\ (forall g acts' st' evs',
         aggrid st = Some g ->
         is_object (gridOptions g) = true ->
         rootEl st <> None ->
         truthy (spec_value st) = true ->
         forallb keeps_refreshing acts' = true ->
         run SSR acts' st = Some (st', evs') ->
         renderGrid_calls evs' = List.length (filter calls_renderGrid acts')
         /\ List.length (rows_set evs') + imports_failed evs'
            + suspended st'
            = suspended st + renderGrid_calls evs'
         /\ constructions evs' = 0
         /\ exists g',
             aggrid st' = Some g'
             /\ gridOptions g' = gridOptions g
             /\ eGridDiv g' = eGridDiv g).
Proof.
  intros H.
  pose proof (run_instances SSR acts _ _ _ H) as N.
  pose proof (instances_le_1 st) as B.
  pose proof (run_in_browser SSR v0 acts st evs H) as Br.
  assert (C : forall g, aggrid st = Some g -> rootEl st <> None ->
                        consistent SSR st).
  { intros g Hg Hr _. split; [|exact Hr]. apply Br. right. congruence. }
  split; [lia|]. split; [|split].
  - intros g acts' st' evs' Hg H'.
    pose proof (run_instances SSR acts' _ _ _ H') as N'.
    pose proof (instances_le_1 st') as B'.
    destruct (run_keeps_widget SSR acts' _ _ _ _ Hg H') as [_ K].
    split; [exact K|].
    assert (I : instances st = 1)
      by (unfold instances; rewrite Hg; reflexivity).
    rewrite grids_created_app. lia.
  - intros g vs Hg Hn Hr Hv.
    apply refresh_sequence; try assumption. exact (C g Hg Hr).
  - intros g acts' st' evs' Hg Hn Hr Ht Hw H'.
    destruct (run_accounting SSR acts' (eGridDiv g) (gridOptions g) Hn Hw
                st st' evs' (C g Hg Hr) Ht) as (Hg' & Hc & Hk & Hs);
      [exists g; auto | exact H' |].
    split; [exact Hk|]. split; [exact Hs|]. split; [exact Hc|]. exact Hg'.
Qed.

Lemma one_grid_refreshed_in_place_witness :
  exists st evs,
    run false [Mount 0; Loaded] (init defaultSpec) = Some (st, evs)
    /\ grids_created evs <= 1.
Proof.
  eexists. eexists. split.
  - reflexivity.
  - refine (proj1 (one_grid_refreshed_in_place
                     false defaultSpec [Mount 0; Loaded] _ _ _)).
    reflexivity.
Defined.

(** C2 as stated fails: with the default grid rendered, a change of the
    value to [undefined] calls nothing, leaves no load pending, and so is
    never followed by a [setRowData]. *)
Lemma falsy_change_makes_no_refresh :
  (exists st g,
      run false [Mount 0; Loaded] (init defaultSpec)
      = Some (st, [ECallRenderGrid; EImport; ENewGrid (Some 0) defaultSpec])
      /\ aggrid st = Some g
      /\ run false [Change JUndefined] st
         = Some (set_spec_value JUndefined st, [])
      /\ run false [Change JUndefined; Loaded] st = None)
  /\ ~ every_change_refreshes false.
Proof.
  split.
  - eexists. eexists. split; [reflexivity|].
    split; [reflexivity|]. split; reflexivity.
  - intros H.
    destruct (H defaultSpec
                (set_aggrid (Some (new_Grid (Some 0) defaultSpec))
                   (set_rootEl (Some 0) (init defaultSpec)))
                (new_Grid (Some 0) defaultSpec) JUndefined)
      as (n & st' & evs & Hrun & Hrows).
    + exists [Mount 0; Loaded]. eexists. reflexivity.
    + reflexivity.
    + destruct n as [| n]; simpl in Hrun.
      * inversion Hrun; subst. apply Hrows. reflexivity.
      * discriminate Hrun.
Qed.

(* ================================================================== *)
(** ** One call per change; the last truthy write is displayed *)

Lemma change_calls (SSR : bool) (v : JsVal) (st st' : State)
  (evs : list Event) :
  step SSR (Change v) st = Some (st', evs) ->
  renderGrid_calls evs <= 1
  /\ (falsy v = true -> renderGrid_calls evs = 0 /\ aggrid st' = aggrid st).
Proof.
  intros H.
  step_inv H; unfold renderGrid_calls; simpl;
    (split; [lia | intros F; try discriminate F; split; reflexivity]).
Qed.

Lemma array_rows_truthy (v : JsVal) (rows : list JsVal) :
  get_prop v "rowData" = Some (JArr rows) ->
  truthy v = true /\ is_object v = true.
Proof. destruct v; simpl; intros H; try discriminate H; auto. Qed.

Lemma init_settled (v0 : JsVal) : settled (init v0).
Proof. intros g rows H. discriminate H. Qed.

Lemma step_settled (SSR : bool) (a : Action) (st st' : State)
  (evs : list Event) :
  undisturbed a = true ->
  consistent SSR st -> settled st ->
  step SSR a st = Some (st', evs) -> settled st'.
Proof.
  intros U C K H. unfold settled, displays in *.
  intros w rows Hg Hn Hs Hv.
  destruct (array_rows_truthy _ _ Hv) as [Ht Ho].
  destruct a as [el | v | | | |]; try discriminate U; clear U;
    simpl in H.
  - (* mount *)
    assert (E : aggrid st' = aggrid st /\ spec_value st' = spec_value st
                /\ (SSR = false -> suspended st' = S (suspended st))).
    { unfold onMounted, call_renderGrid, renderGrid in H.
      destruct SSR; simpl in H.
      - inversion H; subst. simpl. repeat split. discriminate.
      - unfold falsy in H.
        destruct (truthy (spec_value st)) eqn:T; simpl in H;
          inversion H; subst; simpl in *; try congruence; auto. }
    destruct E as (Eg & Ev & Es).
    destruct C as [HS _]; [right; congruence|].
    rewrite (Es HS) in Hs. discriminate Hs.
  - (* change *)
    assert (E : aggrid st' = aggrid st /\ spec_value st' = v
                /\ (SSR = false -> rootEl st <> None ->
                    suspended st' = S (suspended st))).
    { unfold watch_callback, call_renderGrid, renderGrid in H.
      unfold falsy in H. simpl in H.
      destruct (truthy v) eqn:T; simpl in H.
      - destruct SSR; simpl in H.
        + inversion H; subst. simpl. repeat split. discriminate.
        + destruct (rootEl st); simpl in H; inversion H; subst; simpl;
            repeat split; congruence.
      - inversion H; subst; simpl in *. congruence. }
    destruct E as (Eg & Ev & Es).
    destruct C as [HS Hr]; [right; congruence|].
    rewrite (Es HS Hr) in Hs. discriminate Hs.
  - (* a load completes *)
    destruct (suspended st) as [| n]; [discriminate|].
    unfold renderGrid_resume in H. simpl in H.
    destruct (aggrid st) as [g|] eqn:Eg.
    + (* refresh *)
      destruct (is_object (gridOptions g)) eqn:Og.
      * destruct (get_prop (spec_value st) "rowData") as [r|] eqn:Er.
        -- destruct (setRowData_verdict r) eqn:Vr;
             inversion H; subst; simpl in *.
           ++ inversion Hg; subst. simpl. congruence.
           ++ rewrite Er in Hv. inversion Hv; subst. discriminate Vr.
           ++ inversion Hg; subst. simpl. congruence.
        -- inversion H; subst; simpl in *. congruence.
      * inversion H; subst; simpl in *. congruence.
    + (* first render *)
      destruct (Grid_verdict (spec_value st)) eqn:Vg;
        inversion H; subst; simpl in *; try congruence;
        inversion Hg; subst; simpl;
        unfold prop_or_undefined; rewrite Hv; reflexivity.
Qed.

Lemma undisturbed_mounted (a : Action) :
  undisturbed a = true -> is_unmount a = false.
Proof. destruct a; simpl; congruence. Qed.

Lemma run_settled (SSR : bool) (acts : list Action) :
  forall st st' evs,
    forallb undisturbed acts = true ->
    consistent SSR st -> settled st ->
    run SSR acts st = Some (st', evs) ->
    settled st'.
Proof.
  induction acts as [| a rest IH]; simpl; intros st st' evs U C K H.
  - inversion H; subst. exact K.
  - apply andb_true_iff in U. destruct U as [Ua Ur].
    destruct (step SSR a st) as [[st1 e1]|] eqn:Es; [|discriminate].
    destruct (run SSR rest st1) as [[st2 e2]|] eqn:Er; [|discriminate].
    inversion H; subst.
    apply (IH _ _ _ Ur) with (3 := Er).
    + exact (step_consistent _ _ _ _ _ (undisturbed_mounted a Ua) C Es).
    + exact (step_settled _ _ _ _ _ Ua C K Es).
Qed.

(** C4 (amended): a change of the evaluated value makes the watcher call
    [renderGrid] at most once, and not at all when the new value is falsy:
    the widget then stays as it is.  In a run of mounts, changes and loads
    that complete with their library call returning, when no load is
    pending and the [rowData] of the current value is an array, a widget
    whose [gridOptions] is an object shows that [rowData]. *)
Theorem one_call_per_change_truthy_write_wins (SSR : bool) (v0 : JsVal)
  (acts : list Action) (st : State) (evs : list Event) :
  run SSR acts (init v0) = Some (st, evs) ->
  (forall v st' evs',
      step SSR (Change v) st = Some (st', evs') ->
      renderGrid_calls evs' <= 1
      /\ (falsy v = true ->
          renderGrid_calls evs' = 0 /\ aggrid st' = aggrid st))
  /\ (forallb undisturbed acts = true ->
      forall g rows,
        aggrid st = Some g ->
        is_object (gridOptions g) = true ->
        suspended st = 0 ->
        get_prop (spec_value st) "rowData" = Some (JArr rows) ->
        displays g (spec_value st) /\ rowData g = JArr rows).
Proof.
  intros H. split.
  - intros v st' evs'. apply change_calls.
  - intros U g rows Hg Ho Hs Hv.
    pose proof (run_settled SSR acts (init v0) st evs U
                  (init_consistent SSR v0) (init_settled v0) H
                  g rows Hg Ho Hs Hv) as D.
    split; [exact D|]. unfold displays in D. congruence.
Qed.

Lemma one_call_per_change_truthy_write_wins_witness :
  exists st evs g,
    run false
      [Mount 0; Loaded; Change (JObj [("rowData", JArr [JNum 1])]); Loaded]
      (init defaultSpec) = Some (st, evs)
    /\ aggrid st = Some g
    /\ displays g (spec_value st)
    /\ rowData g = JArr [JNum 1].
Proof.
  eexists. eexists. eexists. split; [reflexivity|]. split; [reflexivity|].
  refine (proj2 (one_call_per_change_truthy_write_wins
                   false defaultSpec
                   [Mount 0; Loaded;
                    Change (JObj [("rowData", JArr [JNum 1])]); Loaded]
                   _ _ _)
            _ _ [JNum 1] _ _ _ _); reflexivity.
Defined.

(** C4 as stated fails: with the default grid rendered, [undefined] is
    written last; at rest the widget still displays the default rows, which
    are not the rows of the current value. *)
Lemma falsy_last_write_not_displayed :
  (exists st g,
      run false [Mount 0; Loaded; Change JUndefined] (init defaultSpec)
      = Some (st, [ECallRenderGrid; EImport; ENewGrid (Some 0) defaultSpec])
      /\ spec_value st = JUndefined
      /\ suspended st = 0
      /\ aggrid st = Some g
      /\ rowData g = rows_of defaultSpec
      /\ ~ displays g (spec_value st))
  /\ ~ last_write_wins false.
Proof.
  split.
  - eexists. eexists. split; [reflexivity|].
    split; [reflexivity|]. split; [reflexivity|].
    split; [reflexivity|]. split; [reflexivity|].
    intros D. discriminate D.
  - intros H.
    specialize (H defaultSpec [Mount 0; Loaded; Change JUndefined]
                  _ _ (new_Grid (Some 0) defaultSpec)
                  eq_refl eq_refl eq_refl).
    discriminate H.
Qed.

(** A refresh that is still waiting for its module load when [undefined]
    is written reads the value after the load: the read of [rowData]
    throws and the rows stay those of the default grid. *)
Example pending_refresh_after_falsy_write :
  exists st,
    run false
      [Mount 0; Loaded; Change (JObj [("rowData", JArr [])]);
       Change JUndefined; Loaded]
      (init defaultSpec)
    = Some (st,
            [ECallRenderGrid; EImport; ENewGrid (Some 0) defaultSpec;
             ECallRenderGrid; EImport; ETypeError])
    /\ aggrid st = Some (new_Grid (Some 0) defaultSpec).
Proof. eexists. split; reflexivity. Qed.

(* ================================================================== *)
(** ** Calls, loads and completions *)

Lemma imports_app (e1 e2 : list Event) :
  imports (e1 ++ e2) = imports e1 + imports e2.
Proof. unfold imports. rewrite filter_app, length_app. reflexivity. Qed.

Lemma completions_app (e1 e2 : list Event) :
  completions (e1 ++ e2) = completions e1 + completions e2.
Proof. unfold completions. rewrite filter_app, length_app. reflexivity. Qed.

Lemma step_loads (SSR : bool) (a : Action) (st st' : State)
  (evs : list Event) :
  step SSR a st = Some (st', evs) ->
  imports evs + suspended st = suspended st' + completions evs
  /\ imports evs <= renderGrid_calls evs.
Proof.
  intros H.
  step_inv H; unfold imports, completions, renderGrid_calls; simpl;
    split; lia.
Qed.

Lemma run_loads (SSR : bool) (acts : list Action) :
  forall st st' evs,
    run SSR acts st = Some (st', evs) ->
    imports evs + suspended st = suspended st' + completions evs
    /\ imports evs <= renderGrid_calls evs.
Proof.
  induction acts as [| a rest IH]; simpl; intros st st' evs H.
  - inversion H; subst. unfold imports, completions, renderGrid_calls.
    simpl. split; lia.
  - destruct (step SSR a st) as [[st1 e1]|] eqn:Es; [|discriminate].
    destruct (run SSR rest st1) as [[st2 e2]|] eqn:Er; [|discriminate].
    inversion H; subst.
    destruct (step_loads _ _ _ _ _ Es) as [L1 B1].
    destruct (IH _ _ _ Er) as [L2 B2].
    rewrite imports_app, completions_app, renderGrid_calls_app.
    split; lia.
Qed.

(** X1: in every run of the component, each module load that was started
    is either still pending or has ended in exactly one of: a constructor
    call (that returned or threw), a [setRowData] call (that returned or
    threw), a [TypeError] of the component's own reads, the failure of the
    import; and no load starts without a call of [renderGrid]. *)
Theorem loads_started_pending_or_completed (SSR : bool) (v0 : JsVal)
  (acts : list Action) (st : State) (evs : list Event) :
  run SSR acts (init v0) = Some (st, evs) ->
  imports evs = suspended st + completions evs
  /\ imports evs <= renderGrid_calls evs.
Proof.
  intros H. destruct (run_loads SSR acts _ _ _ H) as [L B].
  simpl in L. split; lia.
Qed.

Lemma loads_started_pending_or_completed_witness :
  exists st evs,
    run false
      [Mount 0; Change defaultSpec; Loaded; LoadFailed; Change (JNum 3);
       Loaded; Change JNull; Change defaultSpec; LoadedThrows]
      (init defaultSpec) = Some (st, evs)
    /\ imports evs = suspended st + completions evs
    /\ imports evs <= renderGrid_calls evs.
Proof.
  eexists. eexists. split.
  - reflexivity.
  - refine (loads_started_pending_or_completed false defaultSpec
              [Mount 0; Change defaultSpec; Loaded; LoadFailed;
               Change (JNum 3); Loaded; Change JNull; Change defaultSpec;
               LoadedThrows] _ _ _).
    reflexivity.
Defined.

Lemma step_calls (SSR : bool) (a : Action) (st st' : State)
  (evs : list Event) :
  step SSR a st = Some (st', evs) ->
  renderGrid_calls evs = if calls_renderGrid a then 1 else 0.
Proof.
  intros H. destruct a as [el | v | | | |]; simpl in *.
  - step_inv H; reflexivity.
  - unfold watch_callback, falsy in H.
    destruct (truthy v); simpl in H; step_inv H; reflexivity.
  - step_inv H; reflexivity.
  - step_inv H; reflexivity.
  - step_inv H; reflexivity.
  - step_inv H; reflexivity.
Qed.

(** X2: from any state, a run calls [renderGrid] once for every mount and
    once for every change to a truthy value, and at no other time: not for
    a change to a falsy value, not when a load completes. *)
Theorem calls_are_mounts_and_truthy_changes (SSR : bool)
  (acts : list Action) :
  forall st st' evs,
    run SSR acts st = Some (st', evs) ->
    renderGrid_calls evs = List.length (filter calls_renderGrid acts).
Proof.
  induction acts as [| a rest IH]; simpl; intros st st' evs H.
  - inversion H; subst. reflexivity.
  - destruct (step SSR a st) as [[st1 e1]|] eqn:Es; [|discriminate].
    destruct (run SSR rest st1) as [[st2 e2]|] eqn:Er; [|discriminate].
    inversion H; subst.
    rewrite renderGrid_calls_app, (step_calls _ _ _ _ _ Es), (IH _ _ _ Er).
    destruct (calls_renderGrid a); reflexivity.
Qed.

Lemma calls_are_mounts_and_truthy_changes_witness :
  exists st evs,
    run true [Change JNull; Mount 0; Change defaultSpec] (init JUndefined)
    = Some (st, evs)
    /\ renderGrid_calls evs = 2.
Proof.
  eexists. eexists. split.
  - reflexivity.
  - refine (calls_are_mounts_and_truthy_changes true
              [Change JNull; Mount 0; Change defaultSpec]
              (init JUndefined) _ _ _).
    reflexivity.
Defined.


(* ================================================================== *)
(** ** Before the mount, and the container of the widget *)

Lemma step_unmounted (SSR : bool) (a : Action) (st st' : State)
  (evs : list Event) :
  rootEl st = None -> suspended st = 0 -> aggrid st = None ->
  is_mount a = false ->
  step SSR a st = Some (st', evs) ->
  rootEl st' = None /\ suspended st' = 0 /\ aggrid st' = None
  /\ effects evs = [].
Proof.
  intros Hr Hs Hg Hm H.
  destruct a as [el | v | | | |]; simpl in Hm, H;
    try discriminate Hm; try (rewrite Hs in H; discriminate H).
  - unfold watch_callback, call_renderGrid, renderGrid in H.
    simpl in H. rewrite Hr in H. rewrite orb_true_r in H.
    destruct (falsy v), SSR; inversion H; subst; simpl; auto.
  - inversion H; subst; simpl; auto.
Qed.

(** X3: as long as the component has not been mounted, nothing is
    rendered whatever values arrive: no module load is started, no widget
    is built, and [aggrid] stays null. *)
Theorem nothing_rendered_before_mount (SSR : bool) (v0 : JsVal)
  (acts : list Action) (st : State) (evs : list Event) :
  forallb (fun a => negb (is_mount a)) acts = true ->
  run SSR acts (init v0) = Some (st, evs) ->
  effects evs = [] /\ aggrid st = None /\ suspended st = 0.
Proof.
  intros Hm H.
  assert (G : forall s s' e,
             rootEl s = None -> suspended s = 0 -> aggrid s = None ->
             run SSR acts s = Some (s', e) ->
             effects e = [] /\ aggrid s' = None /\ suspended s' = 0).
  { clear H. induction acts as [| a rest IH]; simpl;
      intros s s' e Hr Hs Hg H.
    - inversion H; subst. auto.
    - simpl in Hm. apply andb_true_iff in Hm. destruct Hm as [Ha Hrest].
      apply negb_true_iff in Ha.
      destruct (step SSR a s) as [[s1 e1]|] eqn:Es; [|discriminate].
      destruct (run SSR rest s1) as [[s2 e2]|] eqn:Er; [|discriminate].
      inversion H; subst.
      destruct (step_unmounted _ _ _ _ _ Hr Hs Hg Ha Es)
        as (Hr1 & Hs1 & Hg1 & He1).
      destruct (IH Hrest _ _ _ Hr1 Hs1 Hg1 Er) as (He2 & Hg2 & Hs2).
      unfold effects in *. rewrite filter_app, He1, He2. auto. }
  apply (G (init v0) st evs); auto.
Qed.

Lemma nothing_rendered_before_mount_witness :
  exists st evs,
    run false [Change defaultSpec; Change JNull; Change defaultSpec]
      (init defaultSpec) = Some (st, evs)
    /\ effects evs = [] /\ aggrid st = None /\ suspended st = 0.
Proof.
  eexists. eexists. split.
  - reflexivity.
  - refine (nothing_rendered_before_mount false defaultSpec
              [Change defaultSpec; Change JNull; Change defaultSpec]
              _ _ _ _); reflexivity.
Defined.



Lemma built_on_weaken (p q : Element -> Prop) (evs : list Event) :
  (forall x, p x -> q x) ->
  Forall (built_on p) evs -> Forall (built_on q) evs.
Proof.
  intros W. apply Forall_impl. intros e.
  destruct e; simpl; auto; intros (x & E & P); exists x; auto.
Qed.

Lemma placed_weaken (p q : Element -> Prop) (st : State) :
  (forall x, p x -> q x) -> placed p st -> placed q st.
Proof.
  intros W [R G]. split.
  - intros x E. auto.
  - intros g E. destruct (G g E) as (x & Ex & P). exists x. auto.
Qed.

Lemma step_placed (SSR : bool) (a : Action) (st st' : State)
  (evs : list Event) (pool : Element -> Prop) :
  is_unmount a = false ->
  consistent SSR st -> placed pool st ->
  step SSR a st = Some (st', evs) ->
  placed (fun x => pool x \/ a = Mount x) st'
  /\ Forall (built_on pool) evs.
Proof.
  intros U C [R G] H.
  destruct a as [el | v | | | |]; simpl in H; try discriminate U; clear U.
  - (* mount *)
    assert (E : aggrid st' = aggrid st /\ rootEl st' = Some el
                /\ Forall (built_on pool) evs).
    { step_inv H; repeat split; repeat constructor. }
    destruct E as (Eg & Er & Ee). split; [|exact Ee]. split.
    + intros x Ex. rewrite Er in Ex. inversion Ex; subst. right. reflexivity.
    + intros g Eg'. rewrite Eg in Eg'.
      destruct (G g Eg') as (x & Ex & P). exists x. auto.
  - (* change *)
    assert (E : aggrid st' = aggrid st /\ rootEl st' = rootEl st
                /\ Forall (built_on pool) evs).
    { step_inv H; repeat split; repeat constructor. }
    destruct E as (Eg & Er & Ee). split; [|exact Ee]. split.
    + intros x Ex. rewrite Er in Ex. left. auto.
    + intros g Eg'. rewrite Eg in Eg'.
      destruct (G g Eg') as (x & Ex & P). exists x. auto.
  - (* a load completes *)
    destruct (suspended st) as [| n] eqn:Es; [discriminate|].
    destruct C as [_ Cr]; [left; lia|].
    destruct (rootEl st) as [r|] eqn:Er; [|congruence].
    assert (Pr : pool r) by (apply R; reflexivity).
    inversion H as [H']; clear H.
    destruct (aggrid st) as [g|] eqn:Eg.
    + destruct (step_keeps_widget SSR Loaded st st' evs g Eg)
        as [(g' & Eg' & Ed & _) Hc].
      { simpl. rewrite Es. rewrite H'. reflexivity. }
      assert (Er' : rootEl st' = Some r /\ Forall (built_on pool) evs).
      { unfold renderGrid_resume in H'. simpl in H'. rewrite Eg in H'.
        repeat match type of H' with
               | context [if ?b then _ else _] => destruct b
               | context [match ?x with _ => _ end] => destruct x
               end;
          inversion H'; subst; simpl; split; auto; repeat constructor. }
      destruct Er' as [Er' Ee]. split; [|exact Ee]. split.
      * intros x Ex. rewrite Er' in Ex. inversion Ex; subst. left. auto.
      * intros w Ew. rewrite Eg' in Ew. inversion Ew; subst.
        destruct (G g eq_refl) as (x & Ex & P).
        exists x. rewrite Ed. auto.
    + unfold renderGrid_resume in H'. simpl in H'. rewrite Eg, Er in H'.
      destruct (Grid_verdict (spec_value st));
        inversion H'; subst; simpl; (split; [split|]);
        try (intros x Ex; simpl in Ex; rewrite Er in Ex;
             inversion Ex; subst; left; auto; fail);
        try (intros w Ew; simpl in Ew; inversion Ew; subst; simpl;
             exists r; auto; fail);
        try (intros w Ew; simpl in Ew; congruence);
        repeat constructor; simpl; exists r; auto.
  - (* a load completes and the call throws *)
    destruct (suspended st) as [| n] eqn:Es; [discriminate|].
    destruct C as [_ Cr]; [left; lia|].
    destruct (rootEl st) as [r|] eqn:Er; [|congruence].
    assert (Pr : pool r) by (apply R; reflexivity).
    assert (E : st' = set_suspended n st /\ Forall (built_on pool) evs).
    { unfold renderGrid_resume_throws in H. simpl in H. rewrite Er in H.
      repeat match type of H with
             | context [if ?b then _ else _] => destruct b
             | context [match ?x with _ => _ end] => destruct x
             end;
        inversion H; subst; split; auto; repeat constructor;
        simpl; exists r; auto. }
    destruct E as [-> Ee]. split; [|exact Ee]. split; simpl.
    + intros x Ex. left. apply R. rewrite <- Ex. symmetry. exact Er.
    + intros g Eg. destruct (G g Eg) as (x & Ex & P). exists x. auto.
  - (* a load fails *)
    destruct (suspended st) as [| n] eqn:Es; [discriminate|].
    inversion H; subst. split; [|repeat constructor]. split; simpl.
    + intros x Ex. left. apply R. exact Ex.
    + intros g Eg. destruct (G g Eg) as (x & Ex & P). exists x. auto.
Qed.

Lemma run_placed (SSR : bool) (acts : list Action) :
  forall st st' evs (pool : Element -> Prop),
    forallb (fun a => negb (is_unmount a)) acts = true ->
    consistent SSR st -> placed pool st ->
    run SSR acts st = Some (st', evs) ->
    placed (fun x => pool x \/ In (Mount x) acts) st'
    /\ Forall (built_on (fun x => pool x \/ In (Mount x) acts)) evs.
Proof.
  induction acts as [| a rest IH]; simpl; intros st st' evs pool U C P H.
  - inversion H; subst. split; [|constructor].
    apply (placed_weaken pool); auto.
  - apply andb_true_iff in U. destruct U as [Ua Ur].
    apply negb_true_iff in Ua.
    destruct (step SSR a st) as [[st1 e1]|] eqn:Es; [|discriminate].
    destruct (run SSR rest st1) as [[st2 e2]|] eqn:Er; [|discriminate].
    inversion H; subst.
    destruct (step_placed _ _ _ _ _ _ Ua C P Es) as [P1 B1].
    pose proof (step_consistent _ _ _ _ _ Ua C Es) as C1.
    destruct (IH _ _ _ _ Ur C1 P1 Er) as [P2 B2].
    assert (W : forall x,
               (pool x \/ a = Mount x) \/ In (Mount x) rest ->
               pool x \/ a = Mount x \/ In (Mount x) rest)
      by (intros x [[p | m] | i]; auto).
    split.
    + exact (placed_weaken _ _ _ W P2).
    + apply Forall_app. split.
      * apply (built_on_weaken pool); auto.
      * exact (built_on_weaken _ _ _ W B2).
Qed.

(** X5: as long as the component is not unmounted, the constructor is
    only ever called on an element the component was mounted on: each
    constructor call of the run, whether it returns or throws, gets a
    container that is not null and is the element of a mount of that run,
    and so is the container of the widget [aggrid] holds. *)
Theorem widget_built_on_mounted_element (SSR : bool) (v0 : JsVal)
  (acts : list Action) (st : State) (evs : list Event) :
  forallb (fun a => negb (is_unmount a)) acts = true ->
  run SSR acts (init v0) = Some (st, evs) ->
  Forall (built_on (fun x => In (Mount x) acts)) evs
  /\ forall g, aggrid st = Some g ->
               exists x, eGridDiv g = Some x /\ In (Mount x) acts.
Proof.
  intros U H.
  destruct (run_placed SSR acts (init v0) st evs (fun _ => False) U)
    as [P B].
  - apply init_consistent.
  - split; simpl; intros ? E; discriminate E.
  - exact H.
  - assert (W : forall x, False \/ In (Mount x) acts -> In (Mount x) acts)
      by (intros x [[] | i]; exact i).
    split.
    + exact (built_on_weaken _ _ _ W B).
    + intros g Eg. destruct P as [_ G].
      destruct (G g Eg) as (x & Ex & Px). exists x. auto.
Qed.

Lemma widget_built_on_mounted_element_witness :
  exists st evs,
    run false [Mount 7; Loaded; Change defaultSpec; Loaded]
      (init (JNum 5)) = Some (st, evs)
    /\ Forall (built_on
                 (fun x => In (Mount x)
                             [Mount 7; Loaded; Change defaultSpec;
                              Loaded])) evs.
Proof.
  eexists. eexists. split.
  - reflexivity.
  - refine (proj1 (widget_built_on_mounted_element false (JNum 5)
                     [Mount 7; Loaded; Change defaultSpec; Loaded]
                     _ _ _ _)); reflexivity.
Defined.

(* ================================================================== *)
(** ** The first render *)

Lemma object_truthy (v : JsVal) : is_object v = true -> truthy v = true.
Proof. destruct v; simpl; congruence. Qed.

Lemma object_verdict (v : JsVal) :
  is_object v = true -> Grid_verdict v = Either.
Proof. destruct v; simpl; try congruence; reflexivity. Qed.

(** X6: in the browser, mounting with an object as the value makes one
    [renderGrid] call and starts one module load.  When the load completes
    and the constructor returns, one [Grid] has been built on the mounted
    element with that value as its options, and [aggrid] holds it; when
    the constructor throws, [aggrid] stays null. *)
Theorem first_render_on_mount (el : Element) (v0 : JsVal) :
  is_object v0 = true ->
  run false [Mount el; Loaded] (init v0)
  = Some (set_aggrid (Some (new_Grid (Some el) v0))
            (set_rootEl (Some el) (init v0)),
          [ECallRenderGrid; EImport; ENewGrid (Some el) v0])
  /\ gridOptions (new_Grid (Some el) v0) = v0
  /\ rowData (new_Grid (Some el) v0) = rows_of v0
  /\ run false [Mount el; LoadedThrows] (init v0)
     = Some (set_rootEl (Some el) (init v0),
             [ECallRenderGrid; EImport; ENewGridThrows (Some el) v0]).
Proof.
  intros Ho.
  pose proof (object_truthy v0 Ho) as Ht.
  pose proof (object_verdict v0 Ho) as Hv.
  split; [|split; [|split]].
  - cbn [run]. erewrite step_mount_truthy; [| exact Ht].
    unfold step, renderGrid_resume. simpl. rewrite Hv. reflexivity.
  - simpl. rewrite Ht. reflexivity.
  - reflexivity.
  - cbn [run]. erewrite step_mount_truthy; [| exact Ht].
    unfold step, renderGrid_resume_throws. simpl. rewrite Hv. reflexivity.
Qed.

Lemma first_render_on_mount_witness :
  is_object defaultSpec = true
  /\ gridOptions (new_Grid (Some 3) defaultSpec) = defaultSpec.
Proof.
  split.
  - reflexivity.
  - refine (proj1 (proj2 (first_render_on_mount 3 defaultSpec _))).
    reflexivity.
Defined.

(** X7: mounting while the value is falsy renders nothing (the mount hook
    calls [renderGrid], which returns at its guard); the first change to
    an object then has the widget built on the mounted element from that
    object, when the constructor returns. *)
Theorem first_render_deferred (el : Element) (v0 v : JsVal) :
  falsy v0 = true ->
  is_object v = true ->
  run false [Mount el] (init v0)
  = Some (set_rootEl (Some el) (init v0), [ECallRenderGrid])
  /\ run false [Mount el; Change v; Loaded] (init v0)
     = Some (set_aggrid (Some (new_Grid (Some el) v))
               (set_spec_value v (set_rootEl (Some el) (init v0))),
             [ECallRenderGrid; ECallRenderGrid; EImport;
              ENewGrid (Some el) v]).
Proof.
  intros Hf Ho.
  pose proof (object_truthy v Ho) as Ht.
  pose proof (object_verdict v Ho) as Hv.
  assert (M : step false (Mount el) (init v0)
              = Some (set_rootEl (Some el) (init v0), [ECallRenderGrid])).
  { unfold step, onMounted, call_renderGrid, renderGrid. simpl.
    rewrite Hf. reflexivity. }
  split.
  - cbn [run]. rewrite M. reflexivity.
  - cbn [run]. rewrite M.
    erewrite step_change_truthy; [| reflexivity | exact Ht].
    unfold step, renderGrid_resume. simpl. rewrite Hv. reflexivity.
Qed.

Lemma first_render_deferred_witness :
  falsy JUndefined = true
  /\ is_object defaultSpec = true
  /\ run false [Mount 0] (init JUndefined)
     = Some (set_rootEl (Some 0) (init JUndefined), [ECallRenderGrid]).
Proof.
  split; [reflexivity|]. split; [reflexivity|].
  refine (proj1 (first_render_deferred 0 JUndefined defaultSpec _ _));
    reflexivity.
Defined.

(* ================================================================== *)
(** ** Changes while a load is pending *)

(** X8: a refresh hands over the value that is current when its module
    load completes, not the value whose change started it: of two truthy
    changes made before either load completes, the second with an array
    as its [rowData], both refreshes call [setRowData] with the rows of
    the second value and the rows of the first are never passed. *)
Theorem refresh_reads_value_at_completion (SSR : bool) (st : State)
  (g : Grid) (v1 v2 : JsVal) (rows : list JsVal) :
  consistent SSR st ->
  aggrid st = Some g ->
  is_object (gridOptions g) = true ->
  truthy v1 = true ->
  truthy v2 = true ->
  rows_of v2 = JArr rows ->
  run SSR [Change v1; Change v2; Loaded; Loaded] st
  = Some (set_aggrid (Some (setRowData g (rows_of v2)))
            (set_spec_value v2 st),
          [ECallRenderGrid; EImport; ECallRenderGrid; EImport;
           ESetRowData (rows_of v2); ESetRowData (rows_of v2)]).
Proof.
  intros C Hg Hn H1 H2 Hrows.
  assert (Hv : setRowData_verdict (rows_of v2) <> MustThrow)
    by (rewrite Hrows; discriminate).
  destruct C as [HS Hr]; [right; congruence|]. subst SSR.
  destruct (rootEl st) as [el|] eqn:Er; [|congruence].
  pose proof (get_prop_present v2 "rowData" (truthy_not_nullish v2 H2)) as G.
  cbn [run].
  erewrite step_change_truthy; [| exact Er | exact H1].
  erewrite step_change_truthy; [| exact Er | exact H2].
  erewrite step_loaded_refresh;
    [| reflexivity | exact Hg | exact Hn | exact G | exact Hv].
  erewrite step_loaded_refresh;
    [| reflexivity | reflexivity | exact Hn | exact G | exact Hv].
  destruct st; reflexivity.
Qed.

Lemma refresh_reads_value_at_completion_witness :
  rows_set
    [ECallRenderGrid; EImport; ECallRenderGrid; EImport;
     ESetRowData (rows_of (JObj [("rowData", JArr [JNum 2])]));
     ESetRowData (rows_of (JObj [("rowData", JArr [JNum 2])]))]
  = [JArr [JNum 2]; JArr [JNum 2]]
  /\ run false
       [Change (JObj [("rowData", JArr [JNum 1])]);
        Change (JObj [("rowData", JArr [JNum 2])]); Loaded; Loaded]
       (set_aggrid (Some (new_Grid (Some 0) defaultSpec))
          (set_rootEl (Some 0) (init defaultSpec)))
     = Some (set_aggrid
               (Some (setRowData (new_Grid (Some 0) defaultSpec)
                        (rows_of (JObj [("rowData", JArr [JNum 2])]))))
               (set_spec_value (JObj [("rowData", JArr [JNum 2])])
                  (set_aggrid (Some (new_Grid (Some 0) defaultSpec))
                     (set_rootEl (Some 0) (init defaultSpec)))),
             [ECallRenderGrid; EImport; ECallRenderGrid; EImport;
              ESetRowData (rows_of (JObj [("rowData", JArr [JNum 2])]));
              ESetRowData (rows_of (JObj [("rowData", JArr [JNum 2])]))]).
Proof.
  split; [reflexivity|].
  apply (refresh_reads_value_at_completion false
           (set_aggrid (Some (new_Grid (Some 0) defaultSpec))
              (set_rootEl (Some 0) (init defaultSpec)))
           (new_Grid (Some 0) defaultSpec) _ _ [JNum 2]).
  - intros _. split; [reflexivity | discriminate].
  - reflexivity.
  - reflexivity.
  - reflexivity.
  - reflexivity.
  - reflexivity.
Defined.

(** X9: when the value becomes [undefined] or [null] while a refresh is
    waiting for its module load, the refresh throws when the load
    completes: no [setRowData] is called, the rows of the truthy value
    that started the refresh are never shown, and the widget stays as it
    was. *)
Theorem pending_refresh_lost_on_nullish_write (SSR : bool) (st : State)
  (g : Grid) (v w : JsVal) :
  consistent SSR st ->
  aggrid st = Some g ->
  truthy v = true ->
  nullish w = true ->
  run SSR [Change v; Change w; Loaded] st
  = Some (set_spec_value w st, [ECallRenderGrid; EImport; ETypeError]).
Proof.
  intros C Hg Hv Hw.
  destruct C as [HS Hr]; [right; congruence|]. subst SSR.
  destruct (rootEl st) as [el|] eqn:Er; [|congruence].
  assert (Fw : falsy w = true)
    by (destruct w; try discriminate Hw; reflexivity).
  assert (Gw : get_prop w "rowData" = None)
    by (destruct w; try discriminate Hw; reflexivity).
  cbn [run].
  erewrite step_change_truthy; [| exact Er | exact Hv].
  erewrite step_change_falsy; [| exact Fw].
  erewrite step_loaded_throws; [| reflexivity | exact Hg | exact Gw].
  rewrite set_fields_back. reflexivity.
Qed.

Lemma pending_refresh_lost_on_nullish_write_witness :
  run false [Change (JObj [("rowData", JArr [])]); Change JNull; Loaded]
    (set_aggrid (Some (new_Grid (Some 0) defaultSpec))
       (set_rootEl (Some 0) (init defaultSpec)))
  = Some (set_spec_value JNull
            (set_aggrid (Some (new_Grid (Some 0) defaultSpec))
               (set_rootEl (Some 0) (init defaultSpec))),
          [ECallRenderGrid; EImport; ETypeError]).
Proof.
  apply (pending_refresh_lost_on_nullish_write false
           (set_aggrid (Some (new_Grid (Some 0) defaultSpec))
              (set_rootEl (Some 0) (init defaultSpec)))
           (new_Grid (Some 0) defaultSpec)).
  - intros _. split; [reflexivity | discriminate].
  - reflexivity.
  - reflexivity.
  - reflexivity.
Defined.

(* ================================================================== *)
(** ** Runs over objects *)

Lemma object_get_prop (v : JsVal) (k : string) :
  is_object v = true -> get_prop v k = Some (prop_or_undefined v k).
Proof.
  intros Ho. apply get_prop_present, truthy_not_nullish, object_truthy, Ho.
Qed.

Lemma step_sound (SSR : bool) (a : Action) (st st' : State)
  (evs : list Event) :
  is_object (spec_value st) = true ->
  (forall g, aggrid st = Some g -> is_object (gridOptions g) = true) ->
  writes_objects a = true ->
  step SSR a st = Some (st', evs) ->
  is_object (spec_value st') = true
  /\ (forall g, aggrid st' = Some g -> is_object (gridOptions g) = true)
  /\ forallb sound_event evs = true.
Proof.
  intros Ht Hg Hw H.
  destruct a as [el | v | | | |]; simpl in Hw, H.
  - assert (E : spec_value st' = spec_value st /\ aggrid st' = aggrid st
                /\ forallb sound_event evs = true)
      by (step_inv H; auto).
    destruct E as (Ev & Eg & Ee). rewrite Ev, Eg. auto.
  - assert (E : spec_value st' = v /\ aggrid st' = aggrid st
                /\ forallb sound_event evs = true)
      by (step_inv H; auto).
    destruct E as (Ev & Eg & Ee). rewrite Ev, Eg. auto.
  - destruct (suspended st) as [| n]; [discriminate|].
    unfold renderGrid_resume in H. simpl in H.
    destruct (aggrid st) as [g|] eqn:Eg.
    + rewrite (Hg g eq_refl) in H.
      rewrite (object_get_prop _ "rowData" Ht) in H.
      destruct (setRowData_verdict
                  (prop_or_undefined (spec_value st) "rowData"));
        inversion H; subst; simpl;
        (split; [exact Ht|]; split; [|reflexivity]);
        intros w Ew; simpl in Ew;
        try (inversion Ew; subst; simpl; apply (Hg g eq_refl); fail);
        apply Hg; rewrite <- Ew; symmetry; exact Eg.
    + rewrite (object_verdict _ Ht) in H.
      inversion H; subst; simpl. split; [exact Ht|]. split.
      * intros w Ew. inversion Ew; subst. simpl.
        rewrite (object_truthy _ Ht). exact Ht.
      * rewrite Ht. reflexivity.
  - destruct (suspended st) as [| n]; [discriminate|].
    unfold renderGrid_resume_throws in H. simpl in H.
    destruct (aggrid st) as [g|] eqn:Eg.
    + rewrite (Hg g eq_refl) in H.
      rewrite (object_get_prop _ "rowData" Ht) in H.
      destruct (setRowData_verdict
                  (prop_or_undefined (spec_value st) "rowData"));
        inversion H; subst; simpl.
      split; [exact Ht|]. split; [|reflexivity].
      intros w Ew. apply Hg. rewrite <- Ew. symmetry. exact Eg.
    + rewrite (object_verdict _ Ht) in H.
      inversion H; subst; simpl. split; [exact Ht|]. split.
      * intros w Ew. congruence.
      * rewrite Ht. reflexivity.
  - destruct (suspended st) as [| n]; [discriminate|].
    inversion H; subst; simpl. auto.
  - inversion H; subst; simpl. auto.
Qed.

(** X10: when the initial value and every value written are objects, the
    component's own property reads never throw, whatever the library
    does and whether or not the component is unmounted: no [TypeError]
    at [gridOptions.api] or at [rowData], every constructor call gets an
    object as options, and the options of the widget are an object. *)
Theorem object_values_no_type_error (SSR : bool) (v0 : JsVal)
  (acts : list Action) (st : State) (evs : list Event) :
  is_object v0 = true ->
  forallb writes_objects acts = true ->
  run SSR acts (init v0) = Some (st, evs) ->
  forallb sound_event evs = true
  /\ is_object (spec_value st) = true
  /\ forall g, aggrid st = Some g -> is_object (gridOptions g) = true.
Proof.
  intros Ht Hw H.
  assert (G : forall s s' e,
             is_object (spec_value s) = true ->
             (forall g, aggrid s = Some g ->
                        is_object (gridOptions g) = true) ->
             run SSR acts s = Some (s', e) ->
             forallb sound_event e = true
             /\ is_object (spec_value s') = true
             /\ forall g, aggrid s' = Some g ->
                          is_object (gridOptions g) = true).
  { clear H Ht. induction acts as [| a rest IH]; simpl;
      intros s s' e Hs Hg H.
    - inversion H; subst. auto.
    - simpl in Hw. apply andb_true_iff in Hw. destruct Hw as [Ha Hrest].
      destruct (step SSR a s) as [[s1 e1]|] eqn:Es; [|discriminate].
      destruct (run SSR rest s1) as [[s2 e2]|] eqn:Er; [|discriminate].
      inversion H; subst.
      destruct (step_sound _ _ _ _ _ Hs Hg Ha Es) as (Hs1 & Hg1 & He1).
      destruct (IH Hrest _ _ _ Hs1 Hg1 Er) as (He2 & Hs2 & Hg2).
      rewrite forallb_app, He1, He2. auto. }
  apply (G (init v0) st evs); auto.
  intros g E. discriminate E.
Qed.

Lemma object_values_no_type_error_witness :
  exists st evs,
    run false
      [Change (JObj []); Mount 0; Change defaultSpec; Loaded; Unmount;
       LoadedThrows]
      (init defaultSpec) = Some (st, evs)
    /\ forallb sound_event evs = true.
Proof.
  eexists. eexists. split.
  - reflexivity.
  - refine (proj1 (object_values_no_type_error false defaultSpec
                     [Change (JObj []); Mount 0; Change defaultSpec;
                      Loaded; Unmount; LoadedThrows] _ _ _ _ _));
      reflexivity.
Defined.

(** X11: a refresh with an object that has no [rowData] member calls
    [setRowData] with [undefined]; the call returns and the widget keeps
    its options. *)
Theorem refresh_without_rowData (SSR : bool) (st : State) (g : Grid)
  (ps : list (string * JsVal)) :
  consistent SSR st ->
  aggrid st = Some g ->
  is_object (gridOptions g) = true ->
  lookup "rowData" ps = None ->
  run SSR [Change (JObj ps); Loaded] st
  = Some (set_aggrid (Some (setRowData g JUndefined))
            (set_spec_value (JObj ps) st),
          [ECallRenderGrid; EImport; ESetRowData JUndefined]).
Proof.
  intros C Hg Hn Hl.
  assert (R : rows_of (JObj ps) = JUndefined).
  { unfold rows_of, prop_or_undefined. simpl. rewrite Hl. reflexivity. }
  rewrite (refresh_once_returns SSR st g (JObj ps) C Hg Hn eq_refl).
  - rewrite R. reflexivity.
  - rewrite R. discriminate.
Qed.

Lemma refresh_without_rowData_witness :
  run false [Change (JObj [("columnDefs", JArr [])]); Loaded]
    (set_aggrid (Some (new_Grid (Some 0) defaultSpec))
       (set_rootEl (Some 0) (init defaultSpec)))
  = Some (set_aggrid
            (Some (setRowData (new_Grid (Some 0) defaultSpec) JUndefined))
            (set_spec_value (JObj [("columnDefs", JArr [])])
               (set_aggrid (Some (new_Grid (Some 0) defaultSpec))
                  (set_rootEl (Some 0) (init defaultSpec)))),
          [ECallRenderGrid; EImport; ESetRowData JUndefined]).
Proof.
  apply (refresh_without_rowData false
           (set_aggrid (Some (new_Grid (Some 0) defaultSpec))
              (set_rootEl (Some 0) (init defaultSpec)))
           (new_Grid (Some 0) defaultSpec)).
  - intros _. split; [reflexivity | discriminate].
  - reflexivity.
  - reflexivity.
  - reflexivity.
Defined.





(* ================================================================== *)
(** ** The navigation of the manifest *)

Lemma existsb_eqb_In (x : string) (l : list string) :
  existsb (String.eqb x) l = false -> ~ In x l.
Proof.
  induction l as [| y r IH]; simpl; intros H; [tauto|].
  apply orb_false_iff in H. destruct H as [Hy Hr].
  intros [E | I]; [|exact (IH Hr I)].
  subst. rewrite String.eqb_refl in Hy. discriminate.
Qed.

Lemma nodupb_sound (l : list string) : nodupb l = true -> NoDup l.
Proof.
  induction l as [| x r IH]; simpl; intros H; [constructor|].
  apply andb_true_iff in H. destruct H as [Hx Hr].
  apply negb_true_iff in Hx.
  constructor; [apply existsb_eqb_In, Hx | apply IH, Hr].
Qed.

(** X12: in the navigation of the manifest no group label occurs twice
    and no page is listed twice, neither within a group nor in two
    groups. *)
Theorem navigation_without_duplicates :
  NoDup (map fst (nav_groups manifest))
  /\ NoDup (List.concat (map snd (nav_groups manifest)))
  /\ List.length (List.concat (map snd (nav_groups manifest))) = 72.
Proof.
  split; [apply nodupb_sound; vm_compute; reflexivity|].
  split; [apply nodupb_sound; vm_compute; reflexivity|].
  vm_compute. reflexivity.
Qed.

(** X13: every navigation group belongs to one tab: there is a tab of the
    manifest whose [url] is the directory of all the pages of the
    group. *)
Theorem navigation_groups_under_tabs :
  Forall (fun g =>
            exists u,
              In u (tab_urls manifest)
              /\ forallb (under u) (snd g) = true)
         (nav_groups manifest).
Proof.
  apply Forall_forall. intros g Hg.
  assert (B : existsb (fun u => forallb (under u) (snd g))
                (tab_urls manifest) = true).
  { revert g Hg. apply Forall_forall.
    vm_compute. repeat constructor. }
  apply existsb_exists in B. destruct B as (u & Hu & Hp).
  exists u. auto.
Qed.

(* ================================================================== *)
(** ** The stories: controls and evaluated fields *)

Lemma lookup_set_prop_same (k : string) (v : JsVal)
  (ps : list (string * JsVal)) :
  lookup k (set_prop k v ps) = Some v.
Proof.
  induction ps as [| [k' v'] r IH]; simpl.
  - rewrite String.eqb_refl. reflexivity.
  - destruct (String.eqb k k') eqn:E; simpl; rewrite E; auto.
Qed.

Lemma lookup_set_prop_other (k k' : string) (v : JsVal)
  (ps : list (string * JsVal)) :
  k' <> k -> lookup k' (set_prop k v ps) = lookup k' ps.
Proof.
  intros N. induction ps as [| [k0 v0] r IH]; simpl.
  - destruct (String.eqb_spec k' k); [contradiction | reflexivity].
  - destruct (String.eqb_spec k k0); simpl.
    + subst k0. destruct (String.eqb_spec k' k); [contradiction|].
      reflexivity.
    + rewrite IH. reflexivity.
Qed.

Lemma arg_after_rootStyle (args : list (string * JsVal)) (k : string) :
  k <> "rootStyle" ->
  arg (set_prop "rootStyle" rootStyle args) k = arg args k.
Proof.
  intros N. unfold arg, prop_or_undefined, get_prop.
  rewrite (lookup_set_prop_other _ _ _ _ N). reflexivity.
Qed.

(** X14: in the tabs story every control declared in [argTypes] has an
    evaluated field of the same name and there are no other fields; at any
    time the field's value is the story arg of that name ([undefined]
    when the arg is not set); the component is provided as not
    disabled. *)
Theorem tabs_story_fields_follow_controls (Core : Type) (ss : Core)
  (args0 args : list (string * JsVal)) :
  map fst (evaluated (snd (CoreTabsStories.setup ss args0)) args)
  = map fst CoreTabsStories.argTypes
  /\ (forall k,
         In k (map fst CoreTabsStories.argTypes) ->
         lookup k (evaluated (snd (CoreTabsStories.setup ss args0)) args)
         = Some (arg args k))
  /\ isDisabled (snd (CoreTabsStories.setup ss args0)) = false
  /\ core (snd (CoreTabsStories.setup ss args0)) = ss.
Proof.
  split; [reflexivity|]. split; [|split; reflexivity].
  intros k Hk. simpl in Hk.
  repeat (destruct Hk as [<- | Hk]; [reflexivity|]).
  destruct Hk.
Qed.

Lemma tabs_story_fields_follow_controls_witness :
  In "buttonColor" (map fst CoreTabsStories.argTypes)
  /\ lookup "buttonColor"
       (evaluated (snd (CoreTabsStories.setup tt []))
          [("buttonColor", JStr "#ff0000")])
     = Some (JStr "#ff0000").
Proof.
  split.
  - simpl. auto 10.
  - refine (proj1 (proj2 (tabs_story_fields_follow_controls
                            unit tt [] [("buttonColor", JStr "#ff0000")]))
              "buttonColor" _).
    simpl. auto 10.
Defined.

(** X15: in the separator story the two controls [separatorColor] and
    [cssClasses] have an evaluated field each, with the value of the story
    arg of that name, and nothing else is provided as a field. *)
Theorem separator_story_fields_follow_controls (Core : Type) (ss : Core)
  (args0 args : list (string * JsVal)) :
  map fst (evaluated (snd (CoreSeparatorStories.setup ss args0)) args)
  = map fst CoreSeparatorStories.argTypes
  /\ (forall k,
         In k (map fst CoreSeparatorStories.argTypes) ->
         lookup k
           (evaluated (snd (CoreSeparatorStories.setup ss args0)) args)
         = Some (arg args k))
  /\ isDisabled (snd (CoreSeparatorStories.setup ss args0)) = false.
Proof.
  split; [reflexivity|]. split; [|reflexivity].
  intros k Hk. simpl in Hk.
  repeat (destruct Hk as [<- | Hk]; [reflexivity|]).
  destruct Hk.
Qed.

Lemma separator_story_fields_follow_controls_witness :
  In "cssClasses" (map fst CoreSeparatorStories.argTypes)
  /\ lookup "cssClasses"
       (evaluated (snd (CoreSeparatorStories.setup tt [])) [])
     = Some JUndefined.
Proof.
  split.
  - simpl. auto.
  - refine (proj1 (proj2 (separator_story_fields_follow_controls
                            unit tt [] []))
              "cssClasses" _).
    simpl. auto.
Defined.

(** X16: the [setup] of a story sets [args.rootStyle] to the fixed style
    whatever was passed under that name, and changes no other arg: right
    after it every control's field still has the value the story was
    given. *)
Theorem story_setup_assigns_rootStyle_only (Core : Type) (ss : Core)
  (args0 : list (string * JsVal)) :
  arg (fst (CoreTabsStories.setup ss args0)) "rootStyle" = rootStyle
  /\ arg (fst (CoreSeparatorStories.setup ss args0)) "rootStyle" = rootStyle
  /\ (forall k,
         k <> "rootStyle" ->
         arg (fst (CoreTabsStories.setup ss args0)) k = arg args0 k
         /\ arg (fst (CoreSeparatorStories.setup ss args0)) k = arg args0 k)
  /\ (forall k,
         In k (map fst CoreTabsStories.argTypes) ->
         lookup k (evaluated (snd (CoreTabsStories.setup ss args0))
                     (fst (CoreTabsStories.setup ss args0)))
         = Some (arg args0 k))
  /\ (forall k,
         In k (map fst CoreSeparatorStories.argTypes) ->
         lookup k (evaluated (snd (CoreSeparatorStories.setup ss args0))
                     (fst (CoreSeparatorStories.setup ss args0)))
         = Some (arg args0 k)).
Proof.
  assert (R : arg (set_prop "rootStyle" rootStyle args0) "rootStyle"
              = rootStyle).
  { unfold arg, prop_or_undefined, get_prop.
    rewrite lookup_set_prop_same. reflexivity. }
  split; [exact R|]. split; [exact R|]. split; [|split].
  - intros k N. simpl. rewrite (arg_after_rootStyle args0 k N). auto.
  - intros k Hk. simpl in Hk. simpl fst. simpl snd.
    repeat (destruct Hk as [<- | Hk];
            [simpl; rewrite arg_after_rootStyle by discriminate;
             reflexivity|]).
    destruct Hk.
  - intros k Hk. simpl in Hk. simpl fst. simpl snd.
    repeat (destruct Hk as [<- | Hk];
            [simpl; rewrite arg_after_rootStyle by discriminate;
             reflexivity|]).
    destruct Hk.
Qed.

Lemma story_setup_assigns_rootStyle_only_witness :
  "cssClasses" <> "rootStyle"
  /\ arg (fst (CoreTabsStories.setup tt
                 [("rootStyle", JNull); ("cssClasses", JStr "wide")]))
       "cssClasses"
     = JStr "wide".
Proof.
  split.
  - discriminate.
  - refine (proj1 (proj1 (proj2 (proj2
              (story_setup_assigns_rootStyle_only unit tt
                 [("rootStyle", JNull); ("cssClasses", JStr "wide")])))
              "cssClasses" _)).
    discriminate.
Defined.

(* ================================================================== *)
(** ** A first render that meets a nullish value *)

(** X17: when the value becomes [undefined] or [null] between the mount
    and the completion of the first module load, the widget is built all
    the same: the constructor is called on the mounted element with that
    nullish value as its options, and returns. *)
Theorem first_render_on_nullish_value (el : Element) (v0 w : JsVal) :
  truthy v0 = true ->
  nullish w = true ->
  run false [Mount el; Change w; Loaded] (init v0)
  = Some (set_aggrid (Some (new_Grid (Some el) w))
            (set_spec_value w (set_rootEl (Some el) (init v0))),
          [ECallRenderGrid; EImport; ENewGrid (Some el) w]).
Proof.
  intros Ht Hw.
  destruct w; try discriminate Hw;
    cbn [run];
    (erewrite step_mount_truthy; [| exact Ht]);
    (erewrite step_change_falsy; [| reflexivity]);
    reflexivity.
Qed.

Lemma first_render_on_nullish_value_witness :
  run false [Mount 0; Change JUndefined; Loaded] (init defaultSpec)
  = Some (set_aggrid (Some (new_Grid (Some 0) JUndefined))
            (set_spec_value JUndefined
               (set_rootEl (Some 0) (init defaultSpec))),
          [ECallRenderGrid; EImport; ENewGrid (Some 0) JUndefined]).
Proof.
  apply (first_render_on_nullish_value 0 defaultSpec JUndefined);
    reflexivity.
Defined.

Lemma step_stuck (SSR : bool) (a : Action) (st st' : State)
  (evs : list Event) (g : Grid) :
  aggrid st = Some g ->
  nullish (gridOptions g) = true ->
  step SSR a st = Some (st', evs) ->
  aggrid st' = Some g /\ rows_set evs = [] /\ grids_created evs = 0.
Proof.
  intros Hg Hn H.
  assert (Ho : is_object (gridOptions g) = false)
    by (destruct (gridOptions g); try discriminate Hn; reflexivity).
  destruct a as [el | v | | | |]; simpl in H.
  - assert (E : aggrid st' = aggrid st /\ rows_set evs = []
                /\ grids_created evs = 0) by (step_inv H; auto).
    destruct E as (E & R & G). rewrite E. auto.
  - assert (E : aggrid st' = aggrid st /\ rows_set evs = []
                /\ grids_created evs = 0) by (step_inv H; auto).
    destruct E as (E & R & G). rewrite E. auto.
  - destruct (suspended st) as [| n]; [discriminate|].
    unfold renderGrid_resume in H. simpl in H.
    rewrite Hg, Ho in H. inversion H; subst; simpl. auto.
  - destruct (suspended st) as [| n]; [discriminate|].
    unfold renderGrid_resume_throws in H. simpl in H.
    rewrite Hg, Ho in H. discriminate H.
  - destruct (suspended st) as [| n]; [discriminate|].
    inversion H; subst; simpl. auto.
  - inversion H; subst; simpl. auto.
Qed.

(** X18: a widget whose options are [undefined] or [null] is never
    refreshed: whatever changes and completing loads follow, none calls
    [setRowData] (each completing load throws at [gridOptions.api]), no
    new widget replaces it, and [aggrid] keeps holding it. *)
Theorem widget_without_options_never_refreshed (SSR : bool)
  (acts : list Action) :
  forall st st' evs g,
    aggrid st = Some g ->
    nullish (gridOptions g) = true ->
    run SSR acts st = Some (st', evs) ->
    aggrid st' = Some g /\ rows_set evs = [] /\ grids_created evs = 0.
Proof.
  induction acts as [| a rest IH]; simpl; intros st st' evs g Hg Hn H.
  - inversion H; subst. auto.
  - destruct (step SSR a st) as [[st1 e1]|] eqn:Es; [|discriminate].
    destruct (run SSR rest st1) as [[st2 e2]|] eqn:Er; [|discriminate].
    inversion H; subst.
    destruct (step_stuck _ _ _ _ _ _ Hg Hn Es) as (Hg1 & Hr1 & Hc1).
    destruct (IH _ _ _ _ Hg1 Hn Er) as (Hg2 & Hr2 & Hc2).
    rewrite rows_set_app, grids_created_app, Hr1, Hr2, Hc1, Hc2. auto.
Qed.

Lemma widget_without_options_never_refreshed_witness :
  exists st evs,
    run false [Change defaultSpec; Loaded; Change defaultSpec; Loaded]
      (set_aggrid (Some (new_Grid (Some 0) JUndefined))
         (set_spec_value JUndefined
            (set_rootEl (Some 0) (init defaultSpec))))
    = Some (st, evs)
    /\ aggrid st = Some (new_Grid (Some 0) JUndefined)
    /\ rows_set evs = [] /\ grids_created evs = 0.
Proof.
  eexists. eexists. split.
  - reflexivity.
  - refine (widget_without_options_never_refreshed false
              [Change defaultSpec; Loaded; Change defaultSpec; Loaded]
              (set_aggrid (Some (new_Grid (Some 0) JUndefined))
                 (set_spec_value JUndefined
                    (set_rootEl (Some 0) (init defaultSpec))))
              _ _ (new_Grid (Some 0) JUndefined) _ _ _); reflexivity.
Defined.
